(** * Markdown formatters of the Jira MCP server

    A shallow embedding of [utils/formatter.util.ts] and of
    [controllers/atlassian.issues.create.formatter.ts], with the properties
    of the formatting pipeline stated over it.

    Strings are [Stdlib.Strings.String.string]: a JavaScript string is carried
    as the sequence of its UTF-8 bytes.  JavaScript numbers that the
    formatters print (counts, totals, status codes) are integers that
    print in plain decimal notation, and are carried as [Z].  The current
    instant, which the source obtains from
    [new Date()], is an explicit argument [now] (milliseconds since the
    epoch). *)

From Stdlib Require Import ZArith List Bool Lia.
From Stdlib Require Import Strings.Ascii Strings.String Numbers.DecimalString.
Import ListNotations.

Open Scope string_scope.
Open Scope Z_scope.

(** ** Strings *)

Module Str.

(** [s.startsWith(p)] *)
Definition startsWith (s p : string) : bool := String.prefix p s.

(** [parts.join(sep)] *)
Definition join (sep : string) (parts : list string) : string :=
  String.concat sep parts.

(** The line feed as a string, the separator of every [join('\n')]. *)
Definition LF : string := String "010" "".

(** [c.repeat(n)] for a one-character string [c] *)
Fixpoint repeat (c : ascii) (n : nat) : string :=
  match n with
  | O => ""
  | S k => String c (repeat c k)
  end.

(** Position of the first occurrence of [pat] in [s], as [s.indexOf(pat)]
    finds it; [None] stands for -1. *)
Fixpoint indexOf (pat s : string) : option nat :=
  if String.prefix pat s then Some O
  else match s with
       | "" => None
       | String _ rest => option_map S (indexOf pat rest)
       end.

Fixpoint drop (n : nat) (s : string) : string :=
  match n, s with
  | O, _ => s
  | S _, "" => ""
  | S k, String _ rest => drop k rest
  end.

Fixpoint take (n : nat) (s : string) : string :=
  match n, s with
  | O, _ => ""
  | S _, "" => ""
  | S k, String c rest => String c (take k rest)
  end.

(** [s.replace(pat, rep)] with a string pattern: only the first occurrence
    is replaced.  [rep] is taken literally (the replacement strings of the
    source hold no [$]). *)
Definition replace (pat rep s : string) : string :=
  match indexOf pat s with
  | None => s
  | Some i => take i s ++ rep ++ drop (i + String.length pat) s
  end.

(** The ASCII part of ECMAScript's WhiteSpace and LineTerminator. *)
Definition isSpace (c : ascii) : bool :=
  let n := nat_of_ascii c in
  ((9 <=? n) && (n <=? 13))%nat || (n =? 32)%nat.

Fixpoint trimStart (s : string) : string :=
  match s with
  | "" => ""
  | String c rest => if isSpace c then trimStart rest else s
  end.

Fixpoint trimEnd (s : string) : string :=
  match s with
  | "" => ""
  | String c rest =>
      match trimEnd rest with
      | "" => if isSpace c then "" else String c ""
      | r => String c r
      end
  end.

(** [s.trim()] *)
Definition trim (s : string) : string := trimEnd (trimStart s).

(** [sub] occurs in [s]. *)
Definition occursIn (sub s : string) : Prop :=
  exists a b, s = a ++ sub ++ b.

(** Every character of [s] satisfies [p]. *)
Fixpoint all (p : ascii -> bool) (s : string) : bool :=
  match s with
  | "" => true
  | String d rest => p d && all p rest
  end.

(** The character [c] appears nowhere in [s]. *)
Definition lacks (c : ascii) (s : string) : bool :=
  all (fun d => negb (Ascii.eqb c d)) s.

(** [s.includes(sub)] *)
Definition includes (s sub : string) : bool :=
  match indexOf sub s with Some _ => true | None => false end.

(** The line feed. *)
Definition nl : ascii := "010".

(** The lines of [s], as [s.split('\n')] yields them. *)
Fixpoint lines (s : string) : list string :=
  match s with
  | "" => [""]
  | String c rest =>
      if Ascii.eqb c nl then "" :: lines rest
      else match lines rest with
           | l :: ls => String c l :: ls
           | [] => [String c ""]
           end
  end.

End Str.

(** ** JavaScript values *)

(** A string is truthy when it is not empty. *)
Definition truthyStr (s : string) : bool :=
  match s with "" => false | _ => true end.

(** An optional string is truthy when it is present and not empty. *)
Definition truthy (o : option string) : bool :=
  match o with Some s => truthyStr s | None => false end.

(** [a || b] on optional strings whose right operand is a string. *)
Definition orElse (a : option string) (b : string) : string :=
  match a with
  | Some s => if truthyStr s then s else b
  | None => b
  end.

(** [String(n)] for an integer [n]. *)
Definition numToString (n : Z) : string :=
  NilZero.string_of_int (Z.to_int n).

(** ** formatter.util.ts: primitive renderers *)

(** [formatUrl(url?, title?)] *)
Definition formatUrl (url title : option string) : string :=
  if negb (truthy url) then "Not available"
  else
    let u := match url with Some u => u | None => "" end in
    let linkTitle := orElse title u in
    "[" ++ linkTitle ++ "](" ++ u ++ ")".

(** [formatHeading(text, level)] *)
Definition formatHeading (text : string) (level : Z) : string :=
  let validLevel := Z.min (Z.max level 1) 6 in
  let prefix := Str.repeat "#" (Z.to_nat validLevel) in
  prefix ++ " " ++ text.

(** [formatSeparator()] *)
Definition formatSeparator : string := "---".

(** ** The Date runtime

    The parts of ECMAScript's [Date] that the formatters reach.  A [Date]
    object is its time value: [Some t] with [t] in milliseconds since the
    epoch, or [None] for the time value NaN (an "Invalid Date"). *)

Module JsDate.

Definition t := option Z.

Definition msPerDay : Z := 86400000.

(** Year, month (1..12) and day of the month of a day number counted from
    1970-01-01, in the proleptic Gregorian calendar. *)
Definition civilFromDays (days : Z) : Z * Z * Z :=
  let z := days + 719468 in
  let era := z / 146097 in
  let doe := z - era * 146097 in
  let yoe := (doe - doe / 1460 + doe / 36524 - doe / 146096) / 365 in
  let doy := doe - (365 * yoe + yoe / 4 - yoe / 100) in
  let mp := (5 * doy + 2) / 153 in
  let d := doy - (153 * mp + 2) / 5 + 1 in
  let m := if mp <? 10 then mp + 3 else mp - 9 in
  let y := yoe + era * 400 + (if m <=? 2 then 1 else 0) in
  (y, m, d).

(** Day number of a civil date; the inverse of [civilFromDays]. *)
Definition daysFromCivil (y m d : Z) : Z :=
  let y' := if m <=? 2 then y - 1 else y in
  let era := y' / 400 in
  let yoe := y' - era * 400 in
  let mp := if 2 <? m then m - 3 else m + 9 in
  let doy := (153 * mp + 2) / 5 + d - 1 in
  let doe := yoe * 365 + yoe / 4 - yoe / 100 + doy in
  era * 146097 + doe - 719468.

(** Decimal digits of a non-negative number, left-padded with zeros to at
    least [width] characters. *)
Definition pad (width : nat) (n : Z) : string :=
  let s := numToString n in
  Str.repeat "0" (width - String.length s) ++ s.

(** The year of the date-time string format: four digits for the years
    0..9999, otherwise a sign and six digits. *)
Definition isoYear (y : Z) : string :=
  if (0 <=? y) && (y <=? 9999) then pad 4 y
  else (if y <? 0 then "-" else "+") ++ pad 6 (Z.abs y).

Definition isoDate (tv : Z) : string :=
  let '(y, m, d) := civilFromDays (tv / msPerDay) in
  isoYear y ++ "-" ++ pad 2 m ++ "-" ++ pad 2 d.

Definition isoClock (tv : Z) : string :=
  let ms := tv mod msPerDay in
  pad 2 (ms / 3600000) ++ ":" ++ pad 2 ((ms / 60000) mod 60)
    ++ ":" ++ pad 2 ((ms / 1000) mod 60).

Definition isoMillis (tv : Z) : string := pad 3 (tv mod 1000).

(** [date.toISOString()] of a valid date: [YYYY-MM-DDTHH:mm:ss.sssZ]. *)
Definition toISOString (tv : Z) : string :=
  isoDate tv ++ "T" ++ isoClock tv ++ "." ++ isoMillis tv ++ "Z".

(** [TimeClip]: instants further than 8.64e15 ms from the epoch are NaN. *)
Definition timeClip (tv : Z) : t :=
  if Z.abs tv <=? 8640000000000000 then Some tv else None.

(** [new Date()] at the instant [now]. *)
Definition current (now : Z) : t := Some now.

End JsDate.

Definition isDigit (c : ascii) : bool :=
  let n := nat_of_ascii c in ((48 <=? n) && (n <=? 57))%nat.

(** The characters of a timestamp before its [UTC] suffix. *)
Definition stampChar (c : ascii) : bool :=
  isDigit c || Ascii.eqb c "-" || Ascii.eqb c "+" || Ascii.eqb c ":"
    || Ascii.eqb c " ".

(** The date and the clock of an instant, [YYYY-MM-DD HH:MM:SS]. *)
Definition stampText (now : Z) : string :=
  JsDate.isoDate now ++ " " ++ JsDate.isoClock now.

(** The regular expression [/\.\d+Z$/], anchored at the start of [s]:
    [digitsZ seen s] reads [\d*Z$] and wants a digit to have been [seen]. *)
Fixpoint digitsZ (seen : bool) (s : string) : bool :=
  match s with
  | "" => false
  | String c rest =>
      if isDigit c then digitsZ true rest
      else Ascii.eqb c "Z" && seen && (match rest with "" => true | _ => false end)
  end.

Definition matchFracZ (s : string) : bool :=
  match s with
  | String c rest => Ascii.eqb c "." && digitsZ false rest
  | "" => false
  end.

(** [s.replace(/\.\d+Z$/, ' UTC')]: the leftmost match is replaced. *)
Fixpoint replaceFracZ (s : string) : string :=
  if matchFracZ s then " UTC"
  else match s with
       | "" => ""
       | String c rest => String c (replaceFracZ rest)
       end.

#[local] Set Warnings "-register-all".

(** A value as the formatters see it at run time.  Objects are plain data
    objects, an association list in the order of [Object.entries]. *)
Inductive JsValue : Type :=
| VUndefined
| VNull
| VBool (b : bool)
| VNum (n : Z)
| VStr (s : string)
| VDate (d : JsDate.t)
| VObj (props : list (string * JsValue))
| VArr (items : list JsValue).

(** What the host decides about dates: how a string is parsed by
    [new Date(s)] (implementation-defined outside the date-time string
    format), and how a valid date prints under the host's locale and time
    zone. *)
Record Runtime : Type := {
  Date_parse : string -> JsDate.t;
  localeString : Z -> string;
  dateString : Z -> string
}.

(** The own property [k] of a plain object. *)
Fixpoint getProp (k : string) (props : list (string * JsValue)) : option JsValue :=
  match props with
  | [] => None
  | (k', v) :: rest => if String.eqb k k' then Some v else getProp k rest
  end.

(** ToBoolean *)
Definition truthyVal (v : JsValue) : bool :=
  match v with
  | VUndefined | VNull => false
  | VBool b => b
  | VNum n => negb (n =? 0)
  | VStr s => truthyStr s
  | VDate _ | VObj _ | VArr _ => true
  end.

(** The outcome of a [try] block: a value, or an exception. *)
Inductive Completion (A : Type) : Type :=
| Normal (a : A)
| Thrown.

Arguments Normal {A} a.
Arguments Thrown {A}.

(** [try { return body } catch { return fallback }] *)
Definition tryCatch {A : Type} (body : Completion A) (fallback : A) : A :=
  match body with
  | Normal a => a
  | Thrown => fallback
  end.

(** The date inputs of [formatDate]: [string | Date | number]. *)
Inductive DateInput : Type :=
| FromString (s : string)
| FromDate (d : JsDate.t)
| FromNumber (n : Z).

(** ** Response shapes

    The declarations of the response types are not among the sources at
    hand.  The records below carry the attributes that the data model
    lists and that the formatters read.  An optional attribute is an
    [option]; a [Record<string, _>] is the list of its [Object.entries]. *)

Module Pagination.
(** Modelled from the spec: [ResponsePagination] of
    [types/common.types.ts], which is missing: count, total?, hasMore flag,
    nextCursor?.  The count is optional too, since the source gives it a
    default. *)
Record t : Type := {
  count : option Z;
  hasMore : bool;
  nextCursor : option string;
  total : option Z
}.
End Pagination.

Module Schema.
(** Modelled from the spec: the [schema] of a field descriptor, declared
    in the missing [services/vendor.atlassian.issues.types.ts]: type,
    system?, custom?. *)
Record t : Type := {
  type : string;
  system : option string;
  custom : option string
}.
End Schema.

Module Field.
(** Modelled from the spec: [CreateMetaField], declared in the missing
    [services/vendor.atlassian.issues.types.ts]: name, key/fieldId,
    required flag, schema, allowedValues?, defaultValue? (an absent default
    is [VUndefined]). *)
Record t : Type := {
  name : string;
  key : option string;
  fieldId : option string;
  required : bool;
  schema : Schema.t;
  allowedValues : option (list JsValue);
  defaultValue : JsValue
}.
End Field.

Module IssueType.
(** Modelled from the spec: the issue type of a legacy response, declared
    in the missing [services/vendor.atlassian.issues.types.ts]: id, name,
    description?, subtask flag, mapping of field id to field descriptor. *)
Record t : Type := {
  id : string;
  name : string;
  description : option string;
  subtask : bool;
  fields : list (string * Field.t)
}.
End IssueType.

Module Project.
(** Modelled from the spec: the project of a legacy response, declared in
    the missing [services/vendor.atlassian.issues.types.ts]: name, key,
    issuetypes. *)
Record t : Type := {
  name : string;
  key : string;
  issuetypes : list IssueType.t
}.
End Project.

Module CreateMeta.
(** Modelled from the spec: [CreateMetaResponse], declared in the missing
    [services/vendor.atlassian.issues.types.ts]: either fields, name and
    description? (single type) or projects (legacy). *)
Record t : Type := {
  fields : option (list (string * Field.t));
  name : option string;
  description : option string;
  projects : option (list Project.t)
}.
End CreateMeta.

Module ErrorCollection.
(** Modelled from the spec: the error collection of a transition,
    declared in the missing [services/vendor.atlassian.issues.types.ts]:
    errorMessages and errors, both optional. *)
Record t : Type := {
  errorMessages : option (list string);
  errors : option (list (string * string))
}.
End ErrorCollection.

Module Transition.
(** Modelled from the spec: the transition of a create-issue response,
    declared in the missing [services/vendor.atlassian.issues.types.ts]:
    status and errorCollection?. *)
Record t : Type := {
  status : Z;
  errorCollection : option ErrorCollection.t
}.
End Transition.

Module CreateIssue.
(** Modelled from the spec: [CreateIssueResponse], declared in the missing
    [services/vendor.atlassian.issues.types.ts]: key, id, self and an
    optional transition. *)
Record t : Type := {
  key : string;
  id : string;
  self : string;
  transition : option Transition.t
}.
End CreateIssue.

(** [const { count = 0 } = pagination]: an absent count is 0. *)
Definition countOf (pagination : Pagination.t) : Z :=
  match Pagination.count pagination with
  | Some c => c
  | None => 0
  end.

(** [lines.push(...)] of several lines at once: the lines pushed so far,
    followed by the new ones. *)
Infix "+++" := (@app string) (right associativity, at level 60).

(** [items.forEach((item, index) => ...)] where each round pushes lines. *)
Definition forEachIndexed {T : Type} (items : list T)
    (body : T -> nat -> list string) : list string :=
  flat_map (fun '(index, item) => body item index)
           (combine (seq 0 (List.length items)) items).

Section WithRuntime.

Variable rt : Runtime.

(** [date.toLocaleString()]: a date whose time value is NaN prints as
    ["Invalid Date"]; nothing is thrown. *)
Definition toLocaleString (d : JsDate.t) : string :=
  match d with
  | Some tv => localeString rt tv
  | None => "Invalid Date"
  end.

(** [String(v)] *)
Fixpoint toStr (v : JsValue) : string :=
  match v with
  | VUndefined => "undefined"
  | VNull => "null"
  | VBool b => if b then "true" else "false"
  | VNum n => numToString n
  | VStr s => s
  | VDate (Some tv) => dateString rt tv
  | VDate None => "Invalid Date"
  | VObj _ => "[object Object]"
  | VArr items =>
      Str.join ","
        (map (fun x => match x with
                       | VUndefined | VNull => ""
                       | _ => toStr x
                       end) items)
  end.

(** [formatDate(dateInput?)].  Inside the [try], a NaN time value returns
    before [toISOString] could throw. *)
Definition formatDate (dateInput : option DateInput) : string :=
  match dateInput with
  | None => "Not available"
  | Some input =>
      tryCatch
        (let date := match input with
                     | FromDate d => d
                     | FromString s => Date_parse rt s
                     | FromNumber n => JsDate.timeClip n
                     end in
         match date with
         | None => Normal "Invalid date input"
         | Some tv =>
             Normal (replaceFracZ (Str.replace "T" " " (JsDate.toISOString tv)))
         end)
        "Invalid date"
  end.

(** [/^\d{4}-\d{2}-\d{2}T\d{2}:\d{2}:\d{2}/.test(s)]: each [None] of the
    shape is a digit, each [Some c] the character [c]. *)
Fixpoint matchShape (shape : list (option ascii)) (s : string) : bool :=
  match shape, s with
  | [], _ => true
  | _ :: _, "" => false
  | None :: shape', String c rest => isDigit c && matchShape shape' rest
  | Some d :: shape', String c rest => Ascii.eqb c d && matchShape shape' rest
  end.

Definition isoShape : list (option ascii) :=
  let d := @None ascii in
  [d; d; d; d; Some "-"; d; d; Some "-"; d; d; Some "T";
   d; d; Some ":"; d; d; Some ":"; d; d]%char.

Definition looksLikeIsoDate (s : string) : bool := matchShape isoShape s.

(** [formatUrl(url, title)] as [formatValue] calls it on an object: the
    cast [as { url: string; title?: string }] checks nothing, so the title
    is a value of any type.  [title || url] tests the value itself, and the
    template literal converts what was chosen to a string. *)
Definition formatUrlAny (url : option string) (title : JsValue) : string :=
  if negb (truthy url) then "Not available"
  else
    let u := match url with Some u => u | None => "" end in
    let linkTitle := if truthyVal title then toStr title else u in
    "[" ++ linkTitle ++ "](" ++ u ++ ")".

(** [formatValue(value)] *)
Definition formatValue (value : JsValue) : string :=
  match value with
  | VUndefined | VNull => "Not available"
  | VDate d => tryCatch (Normal (toLocaleString d)) "Invalid date"
  | VStr s =>
      if Str.startsWith s "http://" || Str.startsWith s "https://"
      then formatUrl (Some s) None
      else if looksLikeIsoDate s
      then tryCatch (Normal (toLocaleString (Date_parse rt s)))
                    "Invalid date string"
      else s
  | VBool b => if b then "Yes" else "No"
  | VObj props =>
      match getProp "url" props with
      | Some (VStr url) =>
          let title := match getProp "title" props with
                       | Some t => t
                       | None => VUndefined
                       end in
          formatUrlAny (Some url) title
      | _ => toStr value
      end
  | VNum _ | VArr _ => toStr value
  end.

(** [formatBulletList(items, keyFormatter?)], [items] in the order of
    [Object.entries]. *)
Definition formatBulletList (items : list (string * JsValue))
    (keyFormatter : option (string -> string)) : string :=
  let lines :=
    flat_map (fun '(key, value) =>
      match value with
      | VUndefined | VNull => []
      | _ =>
          let formattedKey := match keyFormatter with
                              | Some f => f key
                              | None => key
                              end in
          let formattedValue := formatValue value in
          ["- **" ++ formattedKey ++ "**: " ++ formattedValue]
      end) items in
  Str.join Str.LF lines.

(** [formatNumberedList(items, formatter)] *)
Definition formatNumberedList {T : Type} (items : list T)
    (formatter : T -> nat -> string) : string :=
  match items with
  | [] => "No items."
  | _ =>
      Str.join (Str.LF ++ Str.LF ++ formatSeparator ++ Str.LF ++ Str.LF)
        (map (fun '(index, item) => formatter item index)
             (combine (seq 0 (List.length items)) items))
  end.

(** ** formatter.util.ts: the pagination footer *)

(** The timestamp that [formatDate(new Date())] prints at the instant
    [now]. *)
Definition stamp (now : Z) : string :=
  formatDate (Some (FromDate (JsDate.current now))).

(** The count line that [formatPagination] pushes, if any: the count and
    the total when the total is defined and not negative, otherwise the
    count alone when it is not negative. *)
Definition showingPart (pagination : Pagination.t) : list string :=
  let count := countOf pagination in
  let items :=
    if 0 <=? count
    then ["*Showing " ++ numToString count ++ " item"
            ++ (if negb (count =? 1) then "s" else "") ++ ".*"]
    else [] in
  match Pagination.total pagination with
  | Some t =>
      if 0 <=? t
      then ["*Showing " ++ numToString count ++ " of " ++ numToString t
              ++ " total items.*"]
      else items
  | None => items
  end.

(** The availability line. *)
Definition morePart (pagination : Pagination.t) : list string :=
  if Pagination.hasMore pagination
  then ["More results are available."] else [].

(** The hint that names the next offset. *)
Definition hintPart (pagination : Pagination.t) : list string :=
  let nextCursor := Pagination.nextCursor pagination in
  if Pagination.hasMore pagination && truthy nextCursor
  then ["*Use --start-at " ++ orElse nextCursor "" ++ " to view more.*"]
  else [].

(** The [parts] of [formatPagination] before the timestamp is pushed. *)
Definition paginationParts (pagination : Pagination.t) : list string :=
  [formatSeparator] +++ showingPart pagination +++ morePart pagination
    +++ hintPart pagination.

(** [formatPagination(pagination)] at the instant [now].  The debug line
    handed to the logger is the returned string and is not modelled. *)
Definition formatPagination (now : Z) (pagination : Pagination.t) : string :=
  let parts :=
    paginationParts pagination
      +++ ["*Information retrieved at: " ++ stamp now ++ "*"] in
  Str.trim (Str.join Str.LF parts).

(** ** atlassian.issues.create.formatter.ts *)

(** The text of one allowed value. *)
Definition allowedValueText (val : JsValue) : string :=
  match val with
  | VObj props =>
      match getProp "name" props with
      | Some n => toStr n
      | None => toStr val
      end
  | _ => toStr val
  end.

(** The two lines that [formatFieldList] pushes for one field. *)
Definition fieldEntry (entry : string * Field.t) : list string :=
  let '(fieldId, field) := entry in
  let displayId :=
    if truthy (Field.key field) then orElse (Field.key field) ""
    else orElse (Field.fieldId field) fieldId in
  let sch := Field.schema field in
  let details :=
    ["Type: " ++ Schema.type sch]
      +++ (if truthy (Schema.system sch)
          then ["System: " ++ orElse (Schema.system sch) ""] else [])
      +++ (if truthy (Schema.custom sch)
          then ["Custom: " ++ orElse (Schema.custom sch) ""] else [])
      +++ (match Field.allowedValues field with
          | Some vals =>
              let values := map allowedValueText (firstn 5 vals) in
              ["Values: " ++ Str.join ", " values
                 ++ (if (5 <? List.length vals)%nat then "..." else "")]
          | None => []
          end)
      +++ (match Field.defaultValue field with
          | VUndefined | VNull => []
          | d => ["Default: " ++ toStr d]
          end) in
  ["- **" ++ Field.name field ++ "** (`" ++ displayId ++ "`)";
   "  " ++ Str.join " | " details].

(** The lines that [formatFieldList] joins, for a list that is not
    empty. *)
Definition fieldListLines (fields : list (string * Field.t))
    (limitOptional : bool) : list string :=
  let fieldsToShow := if limitOptional then firstn 10 fields else fields in
  flat_map fieldEntry fieldsToShow
    +++ (if limitOptional && (10 <? List.length fields)%nat
        then ["*... and "
                ++ numToString (Z.of_nat (List.length fields) - 10)
                ++ " more optional fields*"]
        else []).

(** [formatFieldList(fields, limitOptional = false)] *)
Definition formatFieldList (fields : list (string * Field.t))
    (limitOptional : bool) : string :=
  match fields with
  | [] => "*None*"
  | _ => Str.join Str.LF (fieldListLines fields limitOptional)
  end.

Definition requiredOf (fields : list (string * Field.t)) :=
  filter (fun '(_, field) => Field.required field) fields.

Definition optionalOf (fields : list (string * Field.t)) :=
  filter (fun '(_, field) => negb (Field.required field)) fields.

(** The lines pushed for the single issue type of the new endpoint. *)
Definition singleTypeLines (name : string) (description : option string)
    (fields : list (string * Field.t)) : list string :=
  [formatHeading ("Issue Type: " ++ name) 2]
    +++ (if truthy description
        then ["*" ++ orElse description "" ++ "*"; ""] else [])
    +++ [formatHeading "Required Fields" 3;
        formatFieldList (requiredOf fields) false;
        "";
        formatHeading "Optional Fields" 3;
        formatFieldList (optionalOf fields) false].

(** The lines pushed by one round of the loop over the issue types of
    the legacy endpoint. *)
Definition issueTypeLines (issueType : IssueType.t) (index : nat)
    : list string :=
  (if (0 <? index)%nat then [""; formatSeparator; ""] else [])
    +++ [formatHeading (IssueType.name issueType) 2;
        "**ID**: " ++ IssueType.id issueType]
    +++ (if truthy (IssueType.description issueType)
        then ["**Description**: "
                ++ orElse (IssueType.description issueType) ""]
        else [])
    +++ ["**Subtask**: " ++ (if IssueType.subtask issueType then "Yes" else "No");
        "";
        formatHeading "Required Fields" 3;
        formatFieldList (requiredOf (IssueType.fields issueType)) false;
        "";
        formatHeading "Optional Fields" 3;
        (let optionalFields := optionalOf (IssueType.fields issueType) in
         if (0 <? List.length optionalFields)%nat
         then formatFieldList optionalFields true
         else "*No optional fields available.*")].

(** The lines of [formatCreateMeta] that depend on the shape of the
    response. *)
Definition createMetaBody (metadata : CreateMeta.t) : list string :=
  match CreateMeta.fields metadata, truthy (CreateMeta.name metadata) with
  | Some fields, true =>
      singleTypeLines (orElse (CreateMeta.name metadata) "")
                      (CreateMeta.description metadata) fields
  | _, _ =>
      match CreateMeta.projects metadata with
      | Some (project :: _) =>
          ["**" ++ Project.name project ++ "** (" ++ Project.key project ++ ")";
           ""]
            +++ forEachIndexed (Project.issuetypes project) issueTypeLines
      | _ => ["*No issue types available for this project.*"]
      end
  end.

(** The [lines] of [formatCreateMeta] before the timestamp is pushed. *)
Definition createMetaLines (metadata : CreateMeta.t) (projectKey : string)
    : list string :=
  [formatHeading "Issue Creation Metadata" 1;
   "Project: **" ++ projectKey ++ "**";
   ""]
    +++ createMetaBody metadata
    +++ [""; formatSeparator].

(** [formatCreateMeta(metadata, projectKey)] at the instant [now]. *)
Definition formatCreateMeta (now : Z) (metadata : CreateMeta.t)
    (projectKey : string) : string :=
  let lines :=
    createMetaLines metadata projectKey
      +++ ["*Retrieved at: " ++ stamp now ++ "*"] in
  Str.join Str.LF lines.

(** The Browse URL that [formatCreateIssueResponse] derives from [self]. *)
Definition browseUrl (self : string) : string :=
  Str.replace "/rest/api/3/issue/" "/browse/" self.

(** The lines pushed for a transition. *)
Definition transitionLines (transition : Transition.t) : list string :=
  [""; formatHeading "Creation Status" 2;
   "Status Code: " ++ numToString (Transition.status transition)]
    +++ match Transition.errorCollection transition with
       | Some errors =>
           (match ErrorCollection.errorMessages errors with
            | Some (m :: ms) =>
                [""; "**Warnings:**"] +++ map (fun msg => "- " ++ msg) (m :: ms)
            | _ => []
            end)
             +++ (match ErrorCollection.errors errors with
                 | Some (e :: es) =>
                     [""; "**Field Errors:**"]
                       +++ map (fun '(field, error) =>
                                 "- **" ++ field ++ "**: " ++ error) (e :: es)
                 | _ => []
                 end)
       | None => []
       end.

(** The [lines] of [formatCreateIssueResponse] before the timestamp is
    pushed. *)
Definition createIssueLines (response : CreateIssue.t) : list string :=
  let issueInfo :=
    [("Issue Key", VStr (CreateIssue.key response));
     ("Issue ID", VStr (CreateIssue.id response));
     ("Jira URL",
      VStr (formatUrl (Some (CreateIssue.self response)) (Some "Open in Jira")));
     ("Browse URL",
      VStr (formatUrl (Some (browseUrl (CreateIssue.self response)))
                      (Some "View in Browser")))] in
  [formatHeading "✅ Issue Created Successfully" 1; ""]
    +++ [formatBulletList issueInfo None]
    +++ (match CreateIssue.transition response with
         | Some transition => transitionLines transition
         | None => []
         end)
    +++ [""; formatSeparator].

(** [formatCreateIssueResponse(response)] at the instant [now]. *)
Definition formatCreateIssueResponse (now : Z) (response : CreateIssue.t)
    : string :=
  let lines :=
    createIssueLines response
      +++ ["*Issue created at: " ++ stamp now ++ "*"] in
  Str.join Str.LF lines.

End WithRuntime.

(** The lines of a rendered text that begin with [*Showing ]. *)
Definition showingLines (text : string) : list string :=
  filter (fun l => Str.startsWith l "*Showing ") (Str.lines text).

(** ** A sample host

    A host in the UTC time zone under the [sv-SE] locale, whose parser reads
    the date-time form [YYYY-MM-DDTHH:mm:ss] and nothing else.  Illegal
    element values (a month 13, a day 45) make the time value NaN, as the
    date-time string format prescribes. *)

Module SampleHost.

Definition digit (c : ascii) : Z := Z.of_nat (nat_of_ascii c) - 48.

(** The number written by the [n] digits of [s] from position [i]. *)
Fixpoint number (n : nat) (acc : Z) (s : string) : Z :=
  match n, s with
  | S k, String c rest => number k (10 * acc + digit c) rest
  | _, _ => acc
  end.

Definition numberAt (i n : nat) (s : string) : Z :=
  number n 0 (Str.drop i s).

Definition isLeap (y : Z) : bool :=
  ((y mod 4 =? 0) && negb (y mod 100 =? 0)) || (y mod 400 =? 0).

Definition daysInMonth (y m : Z) : Z :=
  if m =? 2 then (if isLeap y then 29 else 28)
  else if (m =? 4) || (m =? 6) || (m =? 9) || (m =? 11) then 30
  else 31.

Definition parse (s : string) : JsDate.t :=
  if looksLikeIsoDate s && (String.length s =? 19)%nat then
    let y := numberAt 0 4 s in
    let m := numberAt 5 2 s in
    let d := numberAt 8 2 s in
    let hh := numberAt 11 2 s in
    let mm := numberAt 14 2 s in
    let ss := numberAt 17 2 s in
    if (1 <=? m) && (m <=? 12) && (1 <=? d) && (d <=? daysInMonth y m)
       && (hh <=? 23) && (mm <=? 59) && (ss <=? 59)
    then Some (JsDate.daysFromCivil y m d * JsDate.msPerDay
               + hh * 3600000 + mm * 60000 + ss * 1000)
    else None
  else None.

Definition locale (tv : Z) : string :=
  JsDate.isoDate tv ++ " " ++ JsDate.isoClock tv.

Definition weekday (tv : Z) : string :=
  nth (Z.to_nat ((tv / JsDate.msPerDay + 4) mod 7))
      ["Sun"; "Mon"; "Tue"; "Wed"; "Thu"; "Fri"; "Sat"] "".

Definition monthName (m : Z) : string :=
  nth (Z.to_nat (m - 1))
      ["Jan"; "Feb"; "Mar"; "Apr"; "May"; "Jun";
       "Jul"; "Aug"; "Sep"; "Oct"; "Nov"; "Dec"] "".

Definition toString (tv : Z) : string :=
  let '(y, m, d) := JsDate.civilFromDays (tv / JsDate.msPerDay) in
  weekday tv ++ " " ++ monthName m ++ " " ++ JsDate.pad 2 d ++ " "
    ++ JsDate.isoYear y ++ " " ++ JsDate.isoClock tv
    ++ " GMT+0000 (Coordinated Universal Time)".

Definition host : Runtime :=
  {| Date_parse := parse; localeString := locale; dateString := toString |}.

End SampleHost.

(** ** Sample inputs *)

Module Samples.

Definition page (count : option Z) (hasMore : bool)
    (nextCursor : option string) (total : option Z) : Pagination.t :=
  {| Pagination.count := count; Pagination.hasMore := hasMore;
     Pagination.nextCursor := nextCursor; Pagination.total := total |}.

(** An optional text field. *)
Definition textField (n : Z) : string * Field.t :=
  ("customfield_" ++ numToString n,
   {| Field.name := "Field " ++ numToString n;
      Field.key := None;
      Field.fieldId := None;
      Field.required := false;
      Field.schema := {| Schema.type := "string"; Schema.system := None;
                         Schema.custom := None |};
      Field.allowedValues := None;
      Field.defaultValue := VUndefined |}).

(** The required summary field. *)
Definition summaryField : string * Field.t :=
  ("summary",
   {| Field.name := "Summary";
      Field.key := Some "summary";
      Field.fieldId := Some "summary";
      Field.required := true;
      Field.schema := {| Schema.type := "string"; Schema.system := Some "summary";
                         Schema.custom := None |};
      Field.allowedValues := None;
      Field.defaultValue := VUndefined |}).

Definition twelveOptional : list (string * Field.t) :=
  map textField [1; 2; 3; 4; 5; 6; 7; 8; 9; 10; 11; 12].

Definition task : IssueType.t :=
  {| IssueType.id := "10002"; IssueType.name := "Task";
     IssueType.description := None; IssueType.subtask := false;
     IssueType.fields := summaryField :: twelveOptional |}.

Definition alpha : Project.t :=
  {| Project.name := "Alpha"; Project.key := "ABC";
     Project.issuetypes := [task] |}.

(** A legacy response with one project and one issue type. *)
Definition legacy : CreateMeta.t :=
  {| CreateMeta.fields := None; CreateMeta.name := None;
     CreateMeta.description := None;
     CreateMeta.projects := Some [alpha] |}.

(** A legacy response whose [projects] array is empty. *)
Definition emptyProjects : CreateMeta.t :=
  {| CreateMeta.fields := None; CreateMeta.name := None;
     CreateMeta.description := None; CreateMeta.projects := Some [] |}.

(** A single-type response with the given fields and name. *)
Definition single (fields : list (string * Field.t)) (name : option string)
    : CreateMeta.t :=
  {| CreateMeta.fields := Some fields; CreateMeta.name := name;
     CreateMeta.description := None; CreateMeta.projects := None |}.


End Samples.

(** ** Notions used by the further properties *)

(** [value === undefined || value === null] *)
Definition nullish (v : JsValue) : bool :=
  match v with
  | VUndefined | VNull => true
  | _ => false
  end.

(** [s === ''] *)
Definition isEmpty (s : string) : bool := negb (truthyStr s).

(** The [Date] that [formatDate] works on: the input itself, or
    [new Date(dateInput)]. *)
Definition toDate (rt : Runtime) (input : DateInput) : JsDate.t :=
  match input with
  | FromDate d => d
  | FromString s => Date_parse rt s
  | FromNumber n => JsDate.timeClip n
  end.

(** [s] has the [shape] and nothing after it. *)
Definition fits (shape : list (option ascii)) (s : string) : bool :=
  matchShape shape s && (String.length s =? List.length shape)%nat.

(** [YYYY-MM-DD HH:MM:SS UTC] *)
Definition stampShape : list (option ascii) :=
  let d := @None ascii in
  [d; d; d; d; Some "-"; d; d; Some "-"; d; d; Some " ";
   d; d; Some ":"; d; d; Some ":"; d; d;
   Some " "; Some "U"; Some "T"; Some "C"]%char.

(** [P] holds of the [fuel] integers from [z] on. *)
Fixpoint allFrom (fuel : nat) (z : Z) (P : Z -> bool) : bool :=
  match fuel with
  | O => true
  | S f => if P z then allFrom f (z + 1) P else false
  end.

(** The civil date of the day [doe] of a 400-year era, as [civilFromDays]
    computes it, the year counted within the era. *)
Definition civilInEra (doe : Z) : Z * Z * Z :=
  let yoe := (doe - doe / 1460 + doe / 36524 - doe / 146096) / 365 in
  let doy := doe - (365 * yoe + yoe / 4 - yoe / 100) in
  let mp := (5 * doy + 2) / 153 in
  let d := doy - (153 * mp + 2) / 5 + 1 in
  let m := if mp <? 10 then mp + 3 else mp - 9 in
  (yoe + (if m <=? 2 then 1 else 0), m, d).

(** The first and the last instant whose year has four digits. *)
Definition firstOfYear0 : Z := -62167219200000.
Definition lastOfYear9999 : Z := 253402300799999.

(** The response [m] with its [projects] replaced. *)
Definition withProjects (m : CreateMeta.t) (projects : option (list Project.t))
    : CreateMeta.t :=
  {| CreateMeta.fields := CreateMeta.fields m;
     CreateMeta.name := CreateMeta.name m;
     CreateMeta.description := CreateMeta.description m;
     CreateMeta.projects := projects |}.

(** The field [f] with its [allowedValues] replaced. *)
Definition withAllowed (f : Field.t) (values : option (list JsValue)) : Field.t :=
  {| Field.name := Field.name f;
     Field.key := Field.key f;
     Field.fieldId := Field.fieldId f;
     Field.required := Field.required f;
     Field.schema := Field.schema f;
     Field.allowedValues := values;
     Field.defaultValue := Field.defaultValue f |}.

(** ** More sample inputs *)

Module MoreSamples.

(** An issue type whose only field is required. *)
Definition bug : IssueType.t :=
  {| IssueType.id := "10001"; IssueType.name := "Bug";
     IssueType.description := Some "A problem";
     IssueType.subtask := false;
     IssueType.fields := [Samples.summaryField] |}.

Definition beta : Project.t :=
  {| Project.name := "Beta"; Project.key := "BET";
     Project.issuetypes := [Samples.task; bug] |}.

(** A project without issue types. *)
Definition bare : Project.t :=
  {| Project.name := "Bare"; Project.key := "BAR";
     Project.issuetypes := [] |}.

Definition legacyOf (projects : list Project.t) : CreateMeta.t :=
  {| CreateMeta.fields := None; CreateMeta.name := None;
     CreateMeta.description := None; CreateMeta.projects := Some projects |}.

(** A transition that carries the given error collection. *)
Definition transitionWith (errors : option ErrorCollection.t) : Transition.t :=
  {| Transition.status := 400; Transition.errorCollection := errors |}.

Definition createdWith (transition : option Transition.t) : CreateIssue.t :=
  {| CreateIssue.key := "ABC-1"; CreateIssue.id := "10001";
     CreateIssue.self := "https://x.atlassian.net/rest/api/3/issue/10001";
     CreateIssue.transition := transition |}.

End MoreSamples.

(** A response that names an issue type and carries no field map. *)
Definition nameOnly (name : string) (projects : option (list Project.t))
    : CreateMeta.t :=
  {| CreateMeta.fields := None; CreateMeta.name := Some name;
     CreateMeta.description := None; CreateMeta.projects := projects |}.

(** * Checks on concrete inputs *)

Example numToString_samples :
  numToString 0 = "0" /\ numToString 42 = "42" /\ numToString (-7) = "-7".
Proof. repeat split. Qed.

Example replace_first_only :
  Str.replace "ab" "X" "zabab" = "zXab".
Proof. reflexivity. Qed.

Example lines_sample :
  Str.lines ("a" ++ String "010" "" ++ "b" ++ String "010" "") = ["a"; "b"; ""].
Proof. reflexivity. Qed.

Example toISOString_epoch :
  JsDate.toISOString 0 = "1970-01-01T00:00:00.000Z".
Proof. reflexivity. Qed.

Example toISOString_2023 :
  JsDate.toISOString 1700000000123 = "2023-11-14T22:13:20.123Z".
Proof. reflexivity. Qed.

Example toISOString_before_epoch :
  JsDate.toISOString (-1) = "1969-12-31T23:59:59.999Z".
Proof. reflexivity. Qed.

Example toISOString_year_10000 :
  JsDate.toISOString 253402300800000 = "+010000-01-01T00:00:00.000Z".
Proof. reflexivity. Qed.

Example daysFromCivil_leap_day :
  JsDate.daysFromCivil 2024 2 29 = 19782 /\
  JsDate.civilFromDays 19782 = (2024, 2, 29).
Proof. split; reflexivity. Qed.

Example formatHeading_clamps :
  formatHeading "x" 0 = "# x" /\ formatHeading "x" 3 = "### x"
  /\ formatHeading "x" 9 = "###### x".
Proof. repeat split. Qed.

Example formatDate_samples :
  formatDate SampleHost.host None = "Not available"
  /\ formatDate SampleHost.host (Some (FromNumber 1700000000123))
     = "2023-11-14 22:13:20 UTC"
  /\ formatDate SampleHost.host (Some (FromString "2023-11-14T22:13:20"))
     = "2023-11-14 22:13:20 UTC"
  /\ formatDate SampleHost.host (Some (FromString "soon"))
     = "Invalid date input"
  /\ formatDate SampleHost.host (Some (FromDate None)) = "Invalid date input".
Proof. repeat split. Qed.

Example formatValue_samples :
  formatValue SampleHost.host VNull = "Not available"
  /\ formatValue SampleHost.host (VBool true) = "Yes"
  /\ formatValue SampleHost.host (VBool false) = "No"
  /\ formatValue SampleHost.host (VNum 42) = "42"
  /\ formatValue SampleHost.host (VStr "https://x.io") = "[https://x.io](https://x.io)"
  /\ formatValue SampleHost.host (VStr "2023-11-14T22:13:20")
     = "2023-11-14 22:13:20"
  /\ formatValue SampleHost.host
       (VObj [("url", VStr "https://x.io"); ("title", VStr "X")])
     = "[X](https://x.io)"
  /\ formatValue SampleHost.host
       (VObj [("url", VStr "https://x.io"); ("title", VArr [])])
     = "[](https://x.io)"
  /\ formatValue SampleHost.host (VArr [VNum 1; VNull; VStr "a"]) = "1,,a".
Proof. repeat split. Qed.

Example formatPagination_sample :
  formatPagination SampleHost.host 1700000000123
    (Samples.page (Some 5) true (Some "50") (Some 100))
  = Str.join Str.LF
      ["---";
       "*Showing 5 of 100 total items.*";
       "More results are available.";
       "*Use --start-at 50 to view more.*";
       "*Information retrieved at: 2023-11-14 22:13:20 UTC*"].
Proof. vm_compute. reflexivity. Qed.

Example formatPagination_singular :
  formatPagination SampleHost.host 0 (Samples.page (Some 1) false None None)
  = Str.join Str.LF
      ["---"; "*Showing 1 item.*";
       "*Information retrieved at: 1970-01-01 00:00:00 UTC*"].
Proof. vm_compute. reflexivity. Qed.

Example formatCreateMeta_single_empty :
  Str.lines
    (formatCreateMeta SampleHost.host 0 (Samples.single [] (Some "Bug")) "ABC")
  = ["# Issue Creation Metadata"; "Project: **ABC**"; "";
     "## Issue Type: Bug";
     "### Required Fields"; "*None*"; "";
     "### Optional Fields"; "*None*"; "";
     "---"; "*Retrieved at: 1970-01-01 00:00:00 UTC*"].
Proof. vm_compute. reflexivity. Qed.

Example formatCreateMeta_legacy_head :
  firstn 12
    (Str.lines (formatCreateMeta SampleHost.host 0 Samples.legacy "ABC"))
  = ["# Issue Creation Metadata"; "Project: **ABC**"; "";
     "**Alpha** (ABC)"; "";
     "## Task"; "**ID**: 10002"; "**Subtask**: No"; "";
     "### Required Fields";
     "- **Summary** (`summary`)";
     "  Type: string | System: summary"].
Proof. vm_compute. reflexivity. Qed.

Example formatCreateIssueResponse_warnings :
  Str.lines
    (formatCreateIssueResponse SampleHost.host 0
       {| CreateIssue.key := "ABC-1"; CreateIssue.id := "10001";
          CreateIssue.self := "https://x.atlassian.net/rest/api/3/issue/10001";
          CreateIssue.transition :=
            Some {| Transition.status := 400;
                    Transition.errorCollection :=
                      Some {| ErrorCollection.errorMessages :=
                                Some ["Field X required"];
                              ErrorCollection.errors :=
                                Some [("summary", "too long")] |} |} |})
  = ["# ✅ Issue Created Successfully"; "";
     "- **Issue Key**: ABC-1";
     "- **Issue ID**: 10001";
     "- **Jira URL**: [Open in Jira](https://x.atlassian.net/rest/api/3/issue/10001)";
     "- **Browse URL**: [View in Browser](https://x.atlassian.net/browse/10001)";
     "";
     "## Creation Status";
     "Status Code: 400";
     "";
     "**Warnings:**";
     "- Field X required";
     "";
     "**Field Errors:**";
     "- **summary**: too long";
     "";
     "---";
     "*Issue created at: 1970-01-01 00:00:00 UTC*"].
Proof. vm_compute. reflexivity. Qed.

(** * Properties *)

(** ** Strings *)

Module StrFacts.

Lemma append_nil_r (s : string) : s ++ "" = s.
Proof. induction s as [|c s IH]; simpl; [reflexivity | now rewrite IH]. Qed.

Lemma append_assoc (a b c : string) : (a ++ b) ++ c = a ++ b ++ c.
Proof. induction a as [|x a IH]; simpl; [reflexivity | now rewrite IH]. Qed.

Lemma length_append (a b : string) :
  String.length (a ++ b) = (String.length a + String.length b)%nat.
Proof. induction a as [|x a IH]; simpl; [reflexivity | now rewrite IH]. Qed.

Lemma all_app p (a b : string) :
  Str.all p (a ++ b) = Str.all p a && Str.all p b.
Proof.
  induction a as [|x a IH]; simpl; [reflexivity|].
  now rewrite IH, andb_assoc.
Qed.

Lemma all_weaken (p q : ascii -> bool) (s : string) :
  (forall c, p c = true -> q c = true) ->
  Str.all p s = true -> Str.all q s = true.
Proof.
  intros Hpq. induction s as [|x s IH]; simpl; [reflexivity|].
  intros H. apply andb_true_iff in H as [Hx Hs].
  now rewrite (Hpq _ Hx), (IH Hs).
Qed.

Lemma all_repeat p c n : p c = true -> Str.all p (Str.repeat c n) = true.
Proof. intros Hc. induction n as [|n IH]; simpl; [reflexivity | now rewrite Hc]. Qed.

Lemma lacks_app c (a b : string) :
  Str.lacks c (a ++ b) = Str.lacks c a && Str.lacks c b.
Proof. apply all_app. Qed.

Lemma prefix_nil (s : string) : String.prefix "" s = true.
Proof. now destruct s. Qed.

Lemma prefix_app (p x : string) : String.prefix p (p ++ x) = true.
Proof.
  induction p as [|c p IH]; simpl; [apply prefix_nil|].
  destruct (ascii_dec c c) as [_|N]; [exact IH | now elim N].
Qed.

(** A prefix can be split off. *)
Lemma prefix_split (p s : string) :
  String.prefix p s = true -> s = p ++ Str.drop (String.length p) s.
Proof.
  revert s. induction p as [|c p IH]; intros s H; [reflexivity|].
  destruct s as [|d s]; simpl in H; [discriminate|].
  destruct (ascii_dec c d) as [->|_]; [|discriminate].
  simpl. f_equal. now apply IH.
Qed.

Lemma prefix_head_neq c d (p s : string) :
  c <> d -> String.prefix (String c p) (String d s) = false.
Proof. intros N. simpl. destruct (ascii_dec c d); [contradiction | reflexivity]. Qed.

Lemma indexOf_eq (pat s : string) :
  Str.indexOf pat s =
  if String.prefix pat s then Some O
  else match s with
       | "" => None
       | String _ rest => option_map S (Str.indexOf pat rest)
       end.
Proof. destruct s; reflexivity. Qed.

(** [indexOf] finds a position at which the pattern stands. *)
Lemma indexOf_some (pat s : string) (i : nat) :
  Str.indexOf pat s = Some i ->
  s = Str.take i s ++ pat ++ Str.drop (i + String.length pat) s.
Proof.
  revert i. induction s as [|c s IH]; intros i H; rewrite indexOf_eq in H.
  - destruct (String.prefix pat "") eqn:E; [|discriminate].
    injection H as <-. now apply prefix_split.
  - destruct (String.prefix pat (String c s)) eqn:E.
    + injection H as <-. now apply prefix_split.
    + destruct (Str.indexOf pat s) as [j|] eqn:Ej; [|discriminate].
      injection H as <-. simpl. f_equal. now apply IH.
Qed.

(** [indexOf] misses no occurrence. *)
Lemma indexOf_complete (pat a b : string) :
  exists i, Str.indexOf pat (a ++ pat ++ b) = Some i.
Proof.
  induction a as [|c a [i IH]].
  - exists O. simpl. now rewrite indexOf_eq, prefix_app.
  - change (String c a ++ pat ++ b) with (String c (a ++ pat ++ b)).
    rewrite indexOf_eq.
    destruct (String.prefix pat (String c (a ++ pat ++ b))).
    + now exists O.
    + rewrite IH. now exists (S i).
Qed.

Lemma includes_spec (s sub : string) :
  Str.includes s sub = true <-> Str.occursIn sub s.
Proof.
  unfold Str.includes, Str.occursIn. split.
  - destruct (Str.indexOf sub s) as [i|] eqn:E; [|discriminate].
    intros _. exists (Str.take i s), (Str.drop (i + String.length sub) s).
    now apply indexOf_some.
  - intros (a & b & ->). now destruct (indexOf_complete sub a b) as [i ->].
Qed.

Lemma not_occursIn (s sub : string) :
  Str.includes s sub = false -> ~ Str.occursIn sub s.
Proof.
  intros H Hocc. apply includes_spec in Hocc. congruence.
Qed.


Lemma take_app (a b : string) : Str.take (String.length a) (a ++ b) = a.
Proof. induction a as [|x a IH]; simpl; [now destruct b | now rewrite IH]. Qed.

Lemma drop_app (a b : string) (n : nat) :
  Str.drop (String.length a + n) (a ++ b) = Str.drop n b.
Proof. induction a as [|x a IH]; simpl; [reflexivity | exact IH]. Qed.

(** The first occurrence of a character that the text before it lacks. *)
Lemma replace_char (c : ascii) (rep a b : string) :
  Str.lacks c a = true ->
  Str.replace (String c "") rep (a ++ String c b) = a ++ rep ++ b.
Proof.
  intros H. unfold Str.replace.
  assert (E : Str.indexOf (String c "") (a ++ String c b)
              = Some (String.length a)).
  { induction a as [|x a IH].
    - simpl. rewrite indexOf_eq. simpl.
      destruct (ascii_dec c c) as [_|N]; [|now elim N].
      now rewrite prefix_nil.
    - simpl in H. apply andb_true_iff in H as [Hx Ha].
      change (String x a ++ String c b) with (String x (a ++ String c b)).
      rewrite indexOf_eq. simpl String.prefix.
      destruct (ascii_dec c x) as [->|_].
      + now rewrite Ascii.eqb_refl in Hx.
      + now rewrite (IH Ha). }
  rewrite E, take_app, drop_app. reflexivity.
Qed.

End StrFacts.

(** ** Trimming, joining and splitting into lines *)

Module TextFacts.
Import StrFacts.

Lemma trimEnd_keeps (a : string) (z : ascii) :
  Str.isSpace z = false ->
  Str.trimEnd (a ++ String z "") = a ++ String z "".
Proof.
  intros Hz. induction a as [|x a IH]; simpl.
  - now rewrite Hz.
  - rewrite IH. now destruct a.
Qed.

(** A text that neither starts nor ends with white space is its own
    [trim]. *)
Lemma trim_keeps (c z : ascii) (mid : string) :
  Str.isSpace c = false -> Str.isSpace z = false ->
  Str.trim (String c (mid ++ String z "")) = String c (mid ++ String z "").
Proof.
  intros Hc Hz. unfold Str.trim. simpl Str.trimStart. rewrite Hc.
  change (String c (mid ++ String z "")) with (String c mid ++ String z "").
  now apply trimEnd_keeps.
Qed.

Lemma join_cons (sep x : string) (y : string) (rest : list string) :
  Str.join sep (x :: y :: rest) = x ++ sep ++ Str.join sep (y :: rest).
Proof. reflexivity. Qed.

Lemma join_snoc (sep : string) (parts : list string) (x : string) :
  parts <> [] ->
  Str.join sep (parts ++ [x]) = Str.join sep parts ++ sep ++ x.
Proof.
  induction parts as [|p parts IH]; intros Hne; [now elim Hne|].
  destruct parts as [|q parts]; [reflexivity|].
  change ((p :: q :: parts) ++ [x])%list with (p :: (q :: parts ++ [x]))%list.
  rewrite !join_cons.
  change (q :: parts ++ [x])%list with ((q :: parts) ++ [x])%list.
  rewrite IH by discriminate. now rewrite !append_assoc.
Qed.

(** Every joined part occurs in the result. *)
Lemma occursIn_join (sep x : string) (parts : list string) :
  In x parts -> Str.occursIn x (Str.join sep parts).
Proof.
  induction parts as [|p parts IH]; intros Hin; [contradiction|].
  destruct parts as [|q parts].
  - destruct Hin as [->|[]]. exists "", "". simpl. now rewrite append_nil_r.
  - rewrite join_cons. destruct Hin as [->|Hin].
    + exists "", (sep ++ Str.join sep (q :: parts)). reflexivity.
    + destruct (IH Hin) as (a & b & E). rewrite E.
      exists (p ++ sep ++ a), b. now rewrite !append_assoc.
Qed.

Lemma occursIn_trans (a b c : string) :
  Str.occursIn a b -> Str.occursIn b c -> Str.occursIn a c.
Proof.
  intros (x & y & ->) (u & v & ->).
  exists (u ++ x), (y ++ v). now rewrite !append_assoc.
Qed.

Lemma occursIn_middle (a x b : string) : Str.occursIn x (a ++ x ++ b).
Proof. now exists a, b. Qed.

Lemma lines_nonempty (s : string) : Str.lines s <> [].
Proof.
  destruct s as [|c s]; simpl; [discriminate|].
  destruct (Ascii.eqb c Str.nl); [discriminate|].
  destruct (Str.lines s); discriminate.
Qed.

Lemma lines_single (a : string) :
  Str.lacks Str.nl a = true -> Str.lines a = [a].
Proof.
  induction a as [|x a IH]; intros H; [reflexivity|].
  simpl in H. apply andb_true_iff in H as [Hx Ha].
  simpl. rewrite Ascii.eqb_sym. apply negb_true_iff in Hx. rewrite Hx.
  now rewrite (IH Ha).
Qed.

Lemma lines_app (a b : string) :
  Str.lacks Str.nl a = true ->
  Str.lines (a ++ Str.LF ++ b) = a :: Str.lines b.
Proof.
  induction a as [|x a IH]; intros H; [reflexivity|].
  simpl in H. apply andb_true_iff in H as [Hx Ha].
  simpl. rewrite Ascii.eqb_sym. apply negb_true_iff in Hx. rewrite Hx.
  simpl in IH. now rewrite (IH Ha).
Qed.

(** Joining with line feeds parts that hold none, then splitting into
    lines, gives the parts back. *)
Lemma lines_join (parts : list string) :
  parts <> [] ->
  Forall (fun p => Str.lacks Str.nl p = true) parts ->
  Str.lines (Str.join Str.LF parts) = parts.
Proof.
  induction parts as [|p parts IH]; intros Hne Hall; [now elim Hne|].
  inversion Hall as [|? ? Hp Hrest]; subst.
  destruct parts as [|q parts].
  - now apply lines_single.
  - rewrite join_cons, lines_app by assumption.
    f_equal. apply IH; [discriminate | assumption].
Qed.

End TextFacts.

(** ** Numbers and timestamps *)

Module StampFacts.
Import StrFacts.

Lemma uint_digits (d : Decimal.uint) :
  Str.all isDigit (NilEmpty.string_of_uint d) = true.
Proof. induction d; simpl; auto. Qed.

Lemma numToString_nonneg_digits (n : Z) :
  0 <= n -> Str.all isDigit (numToString n) = true.
Proof.
  intros Hn. unfold numToString. destruct n as [|p|p]; [reflexivity| |lia].
  simpl. unfold NilZero.string_of_uint.
  destruct (Pos.to_uint p); try reflexivity; apply uint_digits.
Qed.

Lemma numToString_nonempty (n : Z) : numToString n <> "".
Proof.
  unfold numToString. destruct n as [|p|p]; simpl; try discriminate.
  unfold NilZero.string_of_uint. destruct (Pos.to_uint p); discriminate.
Qed.

Lemma numToString_stampChars (n : Z) :
  Str.all stampChar (numToString n) = true.
Proof.
  assert (W : forall c, isDigit c = true -> stampChar c = true).
  { intros c H. unfold stampChar. now rewrite H. }
  destruct (Z_lt_le_dec n 0) as [Hneg|Hpos].
  - unfold numToString. destruct n as [|p|p]; try lia. simpl.
    apply (all_weaken isDigit); [exact W|].
    unfold NilZero.string_of_uint.
    destruct (Pos.to_uint p); try reflexivity; apply uint_digits.
  - apply (all_weaken isDigit); [exact W|].
    now apply numToString_nonneg_digits.
Qed.


Lemma stampChar_lacks (c : ascii) (s : string) :
  stampChar c = false -> Str.all stampChar s = true -> Str.lacks c s = true.
Proof.
  intros Hc. apply all_weaken. intros d Hd.
  destruct (Ascii.eqb c d) eqn:E; [|reflexivity].
  apply Ascii.eqb_eq in E. congruence.
Qed.

Lemma pad_digits (w : nat) (n : Z) :
  0 <= n -> Str.all isDigit (JsDate.pad w n) = true.
Proof.
  intros Hn. unfold JsDate.pad. rewrite all_app, all_repeat by reflexivity.
  now apply numToString_nonneg_digits.
Qed.

Lemma pad_nonempty (w : nat) (n : Z) : JsDate.pad w n <> "".
Proof.
  unfold JsDate.pad. intros E.
  destruct (Str.repeat "0" (w - String.length (numToString n))); [|discriminate].
  now apply (numToString_nonempty n).
Qed.

Lemma pad_stampChars (w : nat) (n : Z) :
  Str.all stampChar (JsDate.pad w n) = true.
Proof.
  unfold JsDate.pad. rewrite all_app, all_repeat by reflexivity.
  apply numToString_stampChars.
Qed.

Lemma isoDate_stampChars (tv : Z) :
  Str.all stampChar (JsDate.isoDate tv) = true.
Proof.
  unfold JsDate.isoDate.
  destruct (JsDate.civilFromDays (tv / JsDate.msPerDay)) as [[y m] d].
  rewrite !all_app, !pad_stampChars. unfold JsDate.isoYear.
  destruct ((0 <=? y) && (y <=? 9999)).
  - now rewrite pad_stampChars.
  - rewrite all_app, pad_stampChars. now destruct (y <? 0).
Qed.

Lemma isoClock_stampChars (tv : Z) :
  Str.all stampChar (JsDate.isoClock tv) = true.
Proof.
  unfold JsDate.isoClock. now rewrite !all_app, !pad_stampChars.
Qed.

Lemma digitsZ_digits (seen : bool) (ds : string) :
  Str.all isDigit ds = true -> (ds <> "" \/ seen = true) ->
  digitsZ seen (ds ++ "Z") = true.
Proof.
  revert seen. induction ds as [|c ds IH]; intros seen Hall Hne.
  - destruct Hne as [N| ->]; [now elim N | reflexivity].
  - simpl in Hall. apply andb_true_iff in Hall as [Hc Hds].
    simpl. rewrite Hc. apply IH; auto.
Qed.

Lemma replaceFracZ_suffix (a b : string) :
  Str.lacks "." a = true -> matchFracZ b = true ->
  replaceFracZ (a ++ b) = a ++ " UTC".
Proof.
  intros Ha Hb. induction a as [|c a IH].
  - simpl. destruct b; simpl in *; [discriminate|]. now rewrite Hb.
  - simpl in Ha. apply andb_true_iff in Ha as [Hc Ha].
    simpl. rewrite Ascii.eqb_sym. apply negb_true_iff in Hc. rewrite Hc.
    simpl. now rewrite (IH Ha).
Qed.

Lemma stampText_stampChars (now : Z) :
  Str.all stampChar (stampText now) = true.
Proof.
  unfold stampText.
  now rewrite !all_app, isoDate_stampChars, isoClock_stampChars.
Qed.

(** [formatDate(new Date())] is the date and the clock of the instant,
    followed by [UTC], on every host. *)
Lemma stamp_eq (rt : Runtime) (now : Z) :
  stamp rt now = stampText now ++ " UTC".
Proof.
  unfold stamp, formatDate, JsDate.current, tryCatch, JsDate.toISOString.
  change "T" with (String "T" "") at 1.
  change (JsDate.isoDate now ++ "T" ++ JsDate.isoClock now ++ "."
            ++ JsDate.isoMillis now ++ "Z")
    with (JsDate.isoDate now
            ++ String "T" (JsDate.isoClock now ++ "."
                             ++ JsDate.isoMillis now ++ "Z")).
  rewrite replace_char
    by (apply stampChar_lacks; [reflexivity | apply isoDate_stampChars]).
  replace (JsDate.isoDate now ++ " " ++ JsDate.isoClock now ++ "."
             ++ JsDate.isoMillis now ++ "Z")
    with (stampText now ++ "." ++ JsDate.isoMillis now ++ "Z")
    by (unfold stampText; now rewrite !append_assoc).
  apply replaceFracZ_suffix.
  - apply stampChar_lacks; [reflexivity | apply stampText_stampChars].
  - simpl. apply digitsZ_digits.
    + apply pad_digits. apply Z.mod_pos_bound. lia.
    + left. apply pad_nonempty.
Qed.

End StampFacts.

(** ** The pagination footer *)

Module PaginationFacts.
Import StrFacts TextFacts StampFacts.

Ltac lacks_pieces :=
  repeat match goal with
    | |- Str.lacks _ (_ ++ _) = true =>
        rewrite lacks_app; apply andb_true_intro; split
    | |- Str.lacks _ (numToString _) = true =>
        apply stampChar_lacks; [reflexivity | apply numToString_stampChars]
    | |- Str.lacks _ (stampText _) = true =>
        apply stampChar_lacks; [reflexivity | apply stampText_stampChars]
    | |- Str.lacks _ (if ?b then _ else _) = true => destruct b
    | |- Str.lacks _ _ = true => first [assumption | reflexivity]
    end.

Lemma trim_keeps_app (c z : ascii) (a b : string) :
  Str.isSpace c = false -> Str.isSpace z = false ->
  Str.trim (String c a ++ b ++ String z "") = String c a ++ b ++ String z "".
Proof.
  intros Hc Hz.
  change (String c a ++ b ++ String z "") with (String c (a ++ b ++ String z "")).
  rewrite <- append_assoc. now apply trim_keeps.
Qed.

Lemma join_head (sep x : string) (rest : list string) :
  exists tl, Str.join sep (x :: rest) = x ++ tl.
Proof.
  destruct rest as [|y rest].
  - exists "". simpl. now rewrite append_nil_r.
  - eexists. apply join_cons.
Qed.

Lemma lacks_join (c : ascii) (sep : string) (parts : list string) :
  Str.lacks c sep = true ->
  Forall (fun p => Str.lacks c p = true) parts ->
  Str.lacks c (Str.join sep parts) = true.
Proof.
  intros Hsep Hall. induction Hall as [|p parts Hp Hrest IH]; [reflexivity|].
  destruct parts as [|q parts]; [exact Hp|].
  rewrite join_cons, !lacks_app, Hp, Hsep. exact IH.
Qed.

Lemma paginationParts_head (p : Pagination.t) :
  exists rest, paginationParts p = "---" :: rest.
Proof. unfold paginationParts. eexists. reflexivity. Qed.

(** The footer is its parts joined by line feeds, the timestamp line
    last: trimming removes nothing. *)
Lemma formatPagination_join (rt : Runtime) (now : Z) (p : Pagination.t) :
  formatPagination rt now p
  = Str.join Str.LF (paginationParts p) ++ Str.LF
      ++ "*Information retrieved at: " ++ stampText now ++ " UTC*".
Proof.
  unfold formatPagination. rewrite stamp_eq.
  destruct (paginationParts_head p) as [rest E]. rewrite E.
  rewrite join_snoc by discriminate.
  destruct (join_head Str.LF "---" rest) as [tl Etl]. rewrite Etl.
  replace (("---" ++ tl) ++ Str.LF
             ++ "*Information retrieved at: " ++ (stampText now ++ " UTC") ++ "*")
    with (String "-" "--"
            ++ (tl ++ Str.LF ++ "*Information retrieved at: "
                   ++ stampText now ++ " UTC")
            ++ String "*" "")
    by (rewrite !append_assoc; reflexivity).
  rewrite trim_keeps_app by reflexivity.
  rewrite !append_assoc. reflexivity.
Qed.

Lemma includes_cons (c : ascii) (s sub : string) :
  Str.includes (String c s) sub
  = String.prefix sub (String c s) || Str.includes s sub.
Proof.
  unfold Str.includes. rewrite indexOf_eq.
  destruct (String.prefix sub (String c s)); [reflexivity|].
  now destruct (Str.indexOf sub s).
Qed.

(** In a text whose only [U] opens [UTC*], no [Use --start-at] occurs. *)
Lemma no_hint_before_UTC (a : string) :
  Str.lacks "U" a = true ->
  Str.includes (a ++ "UTC*") "Use --start-at" = false.
Proof.
  induction a as [|c a IH]; intros H; [reflexivity|].
  simpl in H. apply andb_true_iff in H as [Hc Ha].
  change (String c a ++ "UTC*") with (String c (a ++ "UTC*")).
  rewrite includes_cons, (IH Ha), orb_false_r.
  apply prefix_head_neq. intros E. subst c. discriminate Hc.
Qed.

(** The count line holds neither a [U] nor a line feed. *)
Lemma showingPart_lacks (c : ascii) (p : Pagination.t) :
  c = "U"%char \/ c = Str.nl ->
  Forall (fun part => Str.lacks c part = true) (showingPart p).
Proof.
  intros Hc. unfold showingPart.
  destruct (Pagination.total p) as [t|]; [destruct (0 <=? t)|];
    try destruct (0 <=? countOf p);
    repeat constructor;
    destruct Hc as [-> | ->]; lacks_pieces.
Qed.

(** Without a hint, no part of the footer holds a [U]. *)
Lemma paginationParts_lack_U (p : Pagination.t) :
  Pagination.hasMore p = false ->
  Forall (fun part => Str.lacks "U" part = true) (paginationParts p).
Proof.
  intros H. unfold paginationParts, morePart, hintPart. rewrite H.
  constructor; [reflexivity|].
  apply Forall_app; split; [|constructor].
  apply showingPart_lacks. now left.
Qed.

(** The parts of the footer hold no line feed when the cursor holds
    none. *)
Lemma paginationParts_one_line_each (p : Pagination.t) :
  (forall c, Pagination.nextCursor p = Some c -> Str.lacks Str.nl c = true) ->
  Forall (fun part => Str.lacks Str.nl part = true) (paginationParts p).
Proof.
  intros Hc. unfold paginationParts.
  constructor; [reflexivity|].
  apply Forall_app; split; [|apply Forall_app; split].
  - apply showingPart_lacks. now right.
  - unfold morePart. destruct (Pagination.hasMore p); repeat constructor.
  - unfold hintPart.
    destruct (Pagination.hasMore p && truthy (Pagination.nextCursor p)) eqn:E;
      [|constructor].
    apply andb_true_iff in E as [_ E].
    destruct (Pagination.nextCursor p) as [c|]; [|discriminate].
    specialize (Hc _ eq_refl). constructor; [|constructor].
    unfold orElse. simpl in E. rewrite E.
    lacks_pieces.
Qed.

(** The lines of the footer are its parts and the timestamp line. *)
Lemma formatPagination_lines (rt : Runtime) (now : Z) (p : Pagination.t) :
  (forall c, Pagination.nextCursor p = Some c -> Str.lacks Str.nl c = true) ->
  Str.lines (formatPagination rt now p)
  = paginationParts p
      +++ ["*Information retrieved at: " ++ stampText now ++ " UTC*"].
Proof.
  intros Hc. rewrite formatPagination_join.
  destruct (paginationParts_head p) as [rest E].
  rewrite <- join_snoc by (rewrite E; discriminate).
  apply lines_join.
  - rewrite E. discriminate.
  - apply Forall_app. split; [now apply paginationParts_one_line_each|].
    constructor; [|constructor]. lacks_pieces.
Qed.

Lemma showing_filter_more (p : Pagination.t) :
  filter (fun l => Str.startsWith l "*Showing ") (morePart p) = [].
Proof. unfold morePart. now destruct (Pagination.hasMore p). Qed.

Lemma showing_filter_hint (p : Pagination.t) :
  filter (fun l => Str.startsWith l "*Showing ") (hintPart p) = [].
Proof.
  unfold hintPart.
  now destruct (Pagination.hasMore p && truthy (Pagination.nextCursor p)).
Qed.

Lemma showing_filter_part (p : Pagination.t) :
  filter (fun l => Str.startsWith l "*Showing ") (showingPart p)
  = showingPart p.
Proof.
  unfold showingPart.
  destruct (Pagination.total p) as [t|]; [destruct (0 <=? t)|];
    try destruct (0 <=? countOf p); try reflexivity;
    cbn [filter]; unfold Str.startsWith; now rewrite prefix_app.
Qed.

(** The lines of the footer that begin with [*Showing ] are the count
    line, when there is one. *)
Lemma showingLines_footer (rt : Runtime) (now : Z) (p : Pagination.t) :
  (forall c, Pagination.nextCursor p = Some c -> Str.lacks Str.nl c = true) ->
  showingLines (formatPagination rt now p) = showingPart p.
Proof.
  intros Hc. unfold showingLines. rewrite formatPagination_lines by assumption.
  unfold paginationParts.
  change ([formatSeparator] +++ showingPart p +++ morePart p +++ hintPart p)
    with (formatSeparator :: (showingPart p +++ morePart p +++ hintPart p)).
  rewrite <- app_comm_cons.
  change (filter ?f (formatSeparator :: ?l)) with (filter f l).
  rewrite !filter_app, showing_filter_part, showing_filter_more,
    showing_filter_hint.
  change (filter _ ["*Information retrieved at: " ++ _]) with (@nil string).
  now rewrite !app_nil_r.
Qed.

End PaginationFacts.

(** ** The create-issue formatters *)

Module CreateFacts.
Import StrFacts TextFacts StampFacts.

Lemma lines_cons (c : ascii) (rest : string) :
  Str.lines (String c rest)
  = if Ascii.eqb c Str.nl then "" :: Str.lines rest
    else match Str.lines rest with
         | l :: ls => String c l :: ls
         | [] => [String c ""]
         end.
Proof. reflexivity. Qed.

(** Splitting at a line feed splits the list of lines. *)
Lemma lines_app_any (a b : string) :
  Str.lines (a ++ Str.LF ++ b) = (Str.lines a ++ Str.lines b)%list.
Proof.
  induction a as [|c a IH]; [reflexivity|].
  change (String c a ++ Str.LF ++ b) with (String c (a ++ Str.LF ++ b)).
  rewrite !lines_cons, IH.
  destruct (Ascii.eqb c Str.nl); [reflexivity|].
  pose proof (lines_nonempty a) as Hne.
  destruct (Str.lines a); [now elim Hne | reflexivity].
Qed.

Lemma lines_trailer (body trailer : string) :
  Str.lacks Str.nl trailer = true ->
  Str.lines (body ++ Str.LF ++ trailer) = (Str.lines body ++ [trailer])%list.
Proof. intros H. now rewrite lines_app_any, (lines_single trailer H). Qed.

(** A timestamp line holds no line feed. *)
Lemma stamp_line_one_line (label : string) (now : Z) :
  Str.lacks Str.nl label = true ->
  Str.lacks Str.nl (label ++ stampText now ++ " UTC*") = true.
Proof.
  intros H. rewrite !lacks_app, H.
  rewrite (stampChar_lacks Str.nl (stampText now));
    [reflexivity | reflexivity | apply stampText_stampChars].
Qed.

Lemma createMetaLines_nonempty (rt : Runtime) (m : CreateMeta.t) (k : string) :
  createMetaLines rt m k <> [].
Proof. discriminate. Qed.

Lemma createIssueLines_nonempty (rt : Runtime) (r : CreateIssue.t) :
  createIssueLines rt r <> [].
Proof. discriminate. Qed.

(** The document of [formatCreateMeta]: everything before the timestamp
    line does not depend on the instant. *)
Lemma formatCreateMeta_split (rt : Runtime) (now : Z) (m : CreateMeta.t)
    (k : string) :
  formatCreateMeta rt now m k
  = Str.join Str.LF (createMetaLines rt m k)
      ++ Str.LF ++ "*Retrieved at: " ++ stampText now ++ " UTC*".
Proof.
  unfold formatCreateMeta. rewrite stamp_eq.
  rewrite join_snoc by apply createMetaLines_nonempty.
  now rewrite !append_assoc.
Qed.

(** The document of [formatCreateIssueResponse], split in the same way. *)
Lemma formatCreateIssueResponse_split (rt : Runtime) (now : Z)
    (r : CreateIssue.t) :
  formatCreateIssueResponse rt now r
  = Str.join Str.LF (createIssueLines rt r) ++ Str.LF
      ++ "*Issue created at: " ++ stampText now ++ " UTC*".
Proof.
  unfold formatCreateIssueResponse. rewrite stamp_eq.
  rewrite join_snoc by apply createIssueLines_nonempty.
  now rewrite !append_assoc.
Qed.

(** A document that ends with a timestamp line: its other lines. *)
Lemma removelast_lines_trailer (body trailer : string) :
  Str.lacks Str.nl trailer = true ->
  removelast (Str.lines (body ++ Str.LF ++ trailer)) = Str.lines body
  /\ last (Str.lines (body ++ Str.LF ++ trailer)) "" = trailer.
Proof.
  intros H. rewrite lines_trailer by assumption.
  split; [apply removelast_last | apply last_last].
Qed.

(** Neither the single-type shape nor a project: the body is the
    italic line alone. *)
Lemma createMetaBody_fallback (rt : Runtime) (m : CreateMeta.t) :
  CreateMeta.fields m = None \/ truthy (CreateMeta.name m) = false ->
  CreateMeta.projects m = None \/ CreateMeta.projects m = Some [] ->
  createMetaBody rt m = ["*No issue types available for this project.*"].
Proof.
  intros Hshape Hprojects. unfold createMetaBody.
  assert (E : CreateMeta.projects m = None \/ CreateMeta.projects m = Some []
              -> match CreateMeta.projects m with
                 | Some (project :: _) =>
                     ["**" ++ Project.name project ++ "** ("
                        ++ Project.key project ++ ")"; ""]
                       +++ forEachIndexed (Project.issuetypes project)
                             (issueTypeLines rt)
                 | _ => ["*No issue types available for this project.*"]
                 end = ["*No issue types available for this project.*"]).
  { intros [-> | ->]; reflexivity. }
  destruct Hshape as [-> | ->].
  - now apply E.
  - destruct (CreateMeta.fields m); now apply E.
Qed.

(** The document rendered when no issue type is available. *)
Lemma fallback_document (rt : Runtime) (now : Z) (m : CreateMeta.t)
    (k : string) :
  CreateMeta.fields m = None \/ truthy (CreateMeta.name m) = false ->
  CreateMeta.projects m = None \/ CreateMeta.projects m = Some [] ->
  formatCreateMeta rt now m k
  = Str.join Str.LF
      ["# Issue Creation Metadata";
       "Project: **" ++ k ++ "**";
       "";
       "*No issue types available for this project.*";
       "";
       "---";
       "*Retrieved at: " ++ stampText now ++ " UTC*"].
Proof.
  intros Hshape Hprojects. rewrite formatCreateMeta_split.
  unfold createMetaLines. rewrite createMetaBody_fallback by assumption.
  cbn [app]. change (formatHeading "Issue Creation Metadata" 1)
    with "# Issue Creation Metadata".
  change formatSeparator with "---".
  rewrite !join_cons. cbn [Str.join String.concat].
  now rewrite !append_assoc.
Qed.

Lemma createMetaBody_legacy (rt : Runtime) (m : CreateMeta.t)
    (project : Project.t) (rest : list Project.t) :
  CreateMeta.fields m = None \/ truthy (CreateMeta.name m) = false ->
  CreateMeta.projects m = Some (project :: rest) ->
  createMetaBody rt m
  = ["**" ++ Project.name project ++ "** (" ++ Project.key project ++ ")"; ""]
      +++ forEachIndexed (Project.issuetypes project) (issueTypeLines rt).
Proof.
  intros Hshape Hprojects. unfold createMetaBody. rewrite Hprojects.
  destruct Hshape as [-> | ->]; [reflexivity|].
  now destruct (CreateMeta.fields m).
Qed.

Lemma createMetaBody_single (rt : Runtime) (m : CreateMeta.t)
    (fs : list (string * Field.t)) (n : string) :
  CreateMeta.fields m = Some fs -> CreateMeta.name m = Some n -> n <> "" ->
  createMetaBody rt m = singleTypeLines rt n (CreateMeta.description m) fs.
Proof.
  intros Hf Hn Hne. unfold createMetaBody. rewrite Hf, Hn.
  destruct n as [|c n]; [now elim Hne | reflexivity].
Qed.

(** Every round of an indexed loop contributes its lines. *)
Lemma forEachIndexed_round {T : Type} (items : list T)
    (body : T -> nat -> list string) (x : T) :
  In x items ->
  exists index, incl (body x index) (forEachIndexed items body).
Proof.
  unfold forEachIndexed. generalize O as start.
  induction items as [|y items IH]; intros start Hin; [contradiction|].
  destruct Hin as [->|Hin].
  - exists start. intros l Hl. simpl. apply in_or_app. now left.
  - destruct (IH (S start) Hin) as [index Hincl].
    exists index. intros l Hl. simpl. apply in_or_app. right.
    now apply Hincl.
Qed.

(** A line of the document occurs in the document. *)
Lemma createMeta_line_occurs (rt : Runtime) (now : Z) (m : CreateMeta.t)
    (k line : string) :
  In line (createMetaBody rt m) ->
  Str.occursIn line (formatCreateMeta rt now m k).
Proof.
  intros Hin. rewrite formatCreateMeta_split.
  apply occursIn_trans with (b := Str.join Str.LF (createMetaLines rt m k)).
  - apply occursIn_join. unfold createMetaLines.
    apply in_or_app. right. apply in_or_app. now left.
  - exists "", (Str.LF ++ "*Retrieved at: " ++ stampText now ++ " UTC*").
    reflexivity.
Qed.

Lemma fieldEntry_two_lines (rt : Runtime) (entry : string * Field.t) :
  List.length (fieldEntry rt entry) = 2%nat.
Proof. now destruct entry. Qed.

Lemma fieldEntries_length (rt : Runtime) (fs : list (string * Field.t)) :
  List.length (flat_map (fieldEntry rt) fs) = (2 * List.length fs)%nat.
Proof.
  induction fs as [|f fs IH]; [reflexivity|].
  cbn [flat_map]. rewrite length_app, fieldEntry_two_lines, IH. simpl. lia.
Qed.

(** With the limit, a list of more than ten fields is cut after the
    tenth and closed by the note. *)
Lemma formatFieldList_limited (rt : Runtime) (fs : list (string * Field.t)) :
  (10 < List.length fs)%nat ->
  formatFieldList rt fs true
  = Str.join Str.LF
      (flat_map (fieldEntry rt) (firstn 10 fs)
         +++ ["*... and " ++ numToString (Z.of_nat (List.length fs) - 10)
                ++ " more optional fields*"]).
Proof.
  intros Hlen. unfold formatFieldList, fieldListLines.
  destruct fs as [|f fs]; [simpl in Hlen; lia|].
  apply Nat.ltb_lt in Hlen. now rewrite Hlen.
Qed.

(** Without the limit, every field is rendered. *)
Lemma formatFieldList_unlimited (rt : Runtime) (fs : list (string * Field.t)) :
  fs <> [] ->
  formatFieldList rt fs false = Str.join Str.LF (flat_map (fieldEntry rt) fs).
Proof.
  intros Hne. unfold formatFieldList, fieldListLines.
  destruct fs as [|f fs]; [now elim Hne|]. cbn [andb].
  now rewrite app_nil_r.
Qed.

Lemma issueTypeLines_optional (rt : Runtime) (it : IssueType.t) (index : nat) :
  optionalOf (IssueType.fields it) <> [] ->
  In (formatFieldList rt (optionalOf (IssueType.fields it)) true)
     (issueTypeLines rt it index).
Proof.
  intros Hne. unfold issueTypeLines.
  destruct (optionalOf (IssueType.fields it)) as [|f fs] eqn:E;
    [now elim Hne|].
  cbn [List.length Nat.ltb Nat.leb].
  apply in_or_app. right. apply in_or_app. right. apply in_or_app. right.
  do 6 right. now left.
Qed.

Lemma singleTypeLines_optional (rt : Runtime) (n : string)
    (d : option string) (fs : list (string * Field.t)) :
  In (formatFieldList rt (optionalOf fs) false) (singleTypeLines rt n d fs).
Proof.
  unfold singleTypeLines.
  apply in_or_app. right. apply in_or_app. right.
  do 4 right. now left.
Qed.

(** A rendered link is a plain string to [formatValue]: it is neither a
    URL nor a date. *)
Lemma formatValue_rendered_link (rt : Runtime) (u : string) (c : ascii)
    (title : string) :
  formatValue rt (VStr (formatUrl (Some u) (Some (String c title))))
  = formatUrl (Some u) (Some (String c title)).
Proof. destruct u; reflexivity. Qed.



(** A string that opens like an ISO date-time opens with a digit, so it
    is no [http] URL. *)
Lemma iso_not_url (s : string) :
  looksLikeIsoDate s = true ->
  Str.startsWith s "http://" || Str.startsWith s "https://" = false.
Proof.
  destruct s as [|c s]; [discriminate|].
  unfold looksLikeIsoDate. simpl matchShape. intros H.
  apply andb_true_iff in H as [Hd _].
  assert (Hh : "h"%char <> c) by (intros E; subst c; discriminate Hd).
  unfold Str.startsWith.
  change "http://" with (String "h" "ttp://").
  change "https://" with (String "h" "ttps://").
  now rewrite !prefix_head_neq.
Qed.

(** After the first round, every round of the loop over the issue types
    opens with a blank line, the separator and a blank line. *)
Lemma issueTypeLines_later (rt : Runtime) (it : IssueType.t) (index : nat) :
  issueTypeLines rt it (S index)
  = [""; "---"; ""] +++ issueTypeLines rt it 0.
Proof. reflexivity. Qed.

Lemma forEachIndexed_from (rt : Runtime) (its : list IssueType.t) (s : nat) :
  flat_map (fun '(index, item) => issueTypeLines rt item index)
           (combine (seq (S s) (List.length its)) its)
  = flat_map (fun it => [""; "---"; ""] +++ issueTypeLines rt it 0) its.
Proof.
  revert s. induction its as [|it its IH]; intros s; [reflexivity|].
  cbn [List.length seq combine flat_map].
  now rewrite IH, issueTypeLines_later.
Qed.

(** The loop over the issue types: the first round, then every other
    round behind a blank line, the separator and a blank line. *)
Lemma forEachIndexed_first (rt : Runtime) (first : IssueType.t)
    (others : list IssueType.t) :
  forEachIndexed (first :: others) (issueTypeLines rt)
  = issueTypeLines rt first 0
      +++ flat_map (fun t => [""; "---"; ""] +++ issueTypeLines rt t 0) others.
Proof.
  unfold forEachIndexed. cbn [List.length seq combine flat_map].
  now rewrite forEachIndexed_from.
Qed.

Lemma separators_shift (rt : Runtime) (x : IssueType.t)
    (l : list IssueType.t) (tail : list string) :
  issueTypeLines rt x 0
    +++ flat_map (fun t => [""; "---"; ""] +++ issueTypeLines rt t 0) l
    +++ [""; "---"; ""] +++ tail
  = flat_map (fun t => issueTypeLines rt t 0 +++ [""; "---"; ""]) (x :: l)
      +++ tail.
Proof.
  revert x. induction l as [|y l IH]; intros x.
  - cbn [flat_map]. now rewrite app_nil_r, <- !app_assoc.
  - cbn [flat_map]. cbn [flat_map] in IH.
    rewrite <- !app_assoc. f_equal.
    change ([""; "---"; ""] +++ issueTypeLines rt y 0
              +++ flat_map (fun t => [""; "---"; ""] +++ issueTypeLines rt t 0) l
              +++ [""; "---"; ""] +++ tail)
      with ([""; "---"; ""]
              +++ (issueTypeLines rt y 0
                     +++ flat_map (fun t => [""; "---"; ""]
                                              +++ issueTypeLines rt t 0) l
                     +++ [""; "---"; ""] +++ tail)).
    rewrite IH. now rewrite <- !app_assoc.
Qed.

(** The loop seen from one of its rounds: the rounds before it, each
    followed by the separator lines, its own lines, and the rounds after
    it, each behind the separator lines. *)
Lemma forEachIndexed_around (rt : Runtime) (earlier later : list IssueType.t)
    (it : IssueType.t) :
  forEachIndexed (earlier ++ it :: later) (issueTypeLines rt)
  = flat_map (fun t => issueTypeLines rt t 0 +++ [""; "---"; ""]) earlier
      +++ issueTypeLines rt it 0
      +++ flat_map (fun t => [""; "---"; ""] +++ issueTypeLines rt t 0) later.
Proof.
  destruct earlier as [|e es].
  - apply forEachIndexed_first.
  - change ((e :: es) ++ it :: later)%list with (e :: (es ++ it :: later))%list.
    rewrite <- separators_shift.
    rewrite forEachIndexed_first, flat_map_app. cbn [flat_map].
    now rewrite <- !app_assoc.
Qed.

(** The lines of the first round for an issue type with more than ten
    optional fields: they end with the first ten fields and the note. *)
Lemma issueTypeLines_truncated (rt : Runtime) (it : IssueType.t) :
  (10 < List.length (optionalOf (IssueType.fields it)))%nat ->
  issueTypeLines rt it 0
  = [formatHeading (IssueType.name it) 2; "**ID**: " ++ IssueType.id it]
      +++ (if truthy (IssueType.description it)
           then ["**Description**: " ++ orElse (IssueType.description it) ""]
           else [])
      +++ ["**Subtask**: " ++ (if IssueType.subtask it then "Yes" else "No");
           "";
           "### Required Fields";
           formatFieldList rt (requiredOf (IssueType.fields it)) false;
           "";
           "### Optional Fields";
           Str.join Str.LF
             (flat_map (fieldEntry rt)
                       (firstn 10 (optionalOf (IssueType.fields it)))
                +++ ["*... and "
                       ++ numToString
                            (Z.of_nat (List.length
                                         (optionalOf (IssueType.fields it)))
                             - 10)
                       ++ " more optional fields*"])].
Proof.
  intros Hlen. unfold issueTypeLines.
  rewrite <- (formatFieldList_limited rt _ Hlen).
  replace (0 <? List.length (optionalOf (IssueType.fields it)))%nat with true
    by (symmetry; apply Nat.ltb_lt; lia).
  reflexivity.
Qed.

(** The lines of the single-type path: every optional field is there. *)
Lemma singleTypeLines_complete (rt : Runtime) (name : string)
    (description : option string) (fields : list (string * Field.t)) :
  optionalOf fields <> [] ->
  singleTypeLines rt name description fields
  = [formatHeading ("Issue Type: " ++ name) 2]
      +++ (if truthy description
           then ["*" ++ orElse description "" ++ "*"; ""] else [])
      +++ ["### Required Fields";
           formatFieldList rt (requiredOf fields) false;
           "";
           "### Optional Fields";
           Str.join Str.LF (flat_map (fieldEntry rt) (optionalOf fields))].
Proof.
  intros Hne. unfold singleTypeLines.
  now rewrite <- (formatFieldList_unlimited rt _ Hne).
Qed.

(** The document of [formatCreateMeta] as the join of all its lines. *)
Lemma formatCreateMeta_lines (rt : Runtime) (now : Z) (m : CreateMeta.t)
    (k : string) :
  formatCreateMeta rt now m k
  = Str.join Str.LF
      (["# Issue Creation Metadata"; "Project: **" ++ k ++ "**"; ""]
         +++ createMetaBody rt m
         +++ [""; "---"; "*Retrieved at: " ++ stampText now ++ " UTC*"]).
Proof.
  unfold formatCreateMeta, createMetaLines. rewrite stamp_eq.
  rewrite <- !app_assoc. cbn [app]. now rewrite !append_assoc.
Qed.

End CreateFacts.

(** * Properties of the specification *)

Import StrFacts TextFacts StampFacts PaginationFacts CreateFacts.

(** ** The URL renderer *)

(** C10.  [formatUrl] answers [Not available] for every falsy [url],
    whatever the title.  A falsy [url] is an absent one or the empty
    string, so an empty URL is never rendered as a markdown link. *)
Theorem formatUrl_falsy_not_available (url title : option string) :
  truthy url = false ->
  formatUrl url title = "Not available"
  /\ (url = None \/ url = Some "")
  /\ Str.startsWith (formatUrl url title) "[" = false.
Proof.
  intros H. unfold formatUrl. rewrite H. repeat split.
  destruct url as [[|c u]|]; [now right | discriminate | now left].
Qed.

Lemma formatUrl_falsy_not_available_witness :
  truthy (Some "") = false
  /\ formatUrl (Some "") (Some "Open in Jira") = "Not available".
Proof.
  split; [reflexivity|].
  apply (formatUrl_falsy_not_available (Some "") (Some "Open in Jira")).
  reflexivity.
Defined.

(** ** The pagination footer *)

(** C5, as first stated, fails for a cursor that is defined but empty: the
    source tests [hasMore && nextCursor], the empty string is falsy, and no
    hint is rendered. *)
Lemma pagination_empty_cursor_has_no_hint :
  Pagination.hasMore (Samples.page (Some 5) true (Some "") None) = true
  /\ Pagination.nextCursor (Samples.page (Some 5) true (Some "") None) = Some ""
  /\ ~ Str.occursIn ("*Use --start-at " ++ "" ++ " to view more.*")
         (formatPagination SampleHost.host 1700000000123
            (Samples.page (Some 5) true (Some "") None))
  /\ ~ Str.occursIn "--start-at"
         (formatPagination SampleHost.host 1700000000123
            (Samples.page (Some 5) true (Some "") None))
  /\ formatPagination SampleHost.host 1700000000123
       (Samples.page (Some 5) true (Some "") None)
     = Str.join Str.LF
         ["---"; "*Showing 5 items.*"; "More results are available.";
          "*Information retrieved at: 2023-11-14 22:13:20 UTC*"].
Proof.
  repeat split; try (apply not_occursIn); vm_compute; reflexivity.
Qed.

(** C5 (amended).  For every pagination input with [hasMore = true] and a
    defined, non-empty [nextCursor], the footer contains the hint
    [*Use --start-at {nextCursor} to view more.*], and so the cursor
    value. *)
Theorem pagination_hint_names_cursor
    (rt : Runtime) (now : Z) (p : Pagination.t) (cursor : string) :
  Pagination.hasMore p = true ->
  Pagination.nextCursor p = Some cursor ->
  cursor <> "" ->
  Str.occursIn ("*Use --start-at " ++ cursor ++ " to view more.*")
    (formatPagination rt now p)
  /\ Str.occursIn cursor (formatPagination rt now p).
Proof.
  intros Hmore Hcur Hne.
  assert (Hhint : Str.occursIn ("*Use --start-at " ++ cursor ++ " to view more.*")
                    (formatPagination rt now p)).
  { rewrite formatPagination_join.
    apply occursIn_trans with (b := Str.join Str.LF (paginationParts p)).
    - apply occursIn_join. unfold paginationParts, hintPart.
      rewrite Hmore, Hcur. destruct cursor as [|c cursor]; [now elim Hne|].
      apply in_or_app. right. apply in_or_app. right. apply in_or_app. right.
      now left.
    - exists "", (Str.LF ++ "*Information retrieved at: " ++ stampText now
                    ++ " UTC*").
      reflexivity. }
  split; [exact Hhint|].
  apply occursIn_trans with (2 := Hhint). apply occursIn_middle.
Qed.

Lemma pagination_hint_names_cursor_witness :
  Str.occursIn "*Use --start-at 50 to view more.*"
    (formatPagination SampleHost.host 1700000000123
       (Samples.page (Some 5) true (Some "50") (Some 100)))
  /\ Str.occursIn "50"
       (formatPagination SampleHost.host 1700000000123
          (Samples.page (Some 5) true (Some "50") (Some 100))).
Proof.
  apply (pagination_hint_names_cursor SampleHost.host 1700000000123
           (Samples.page (Some 5) true (Some "50") (Some 100)) "50").
  - reflexivity.
  - reflexivity.
  - discriminate.
Defined.

(** C6.  For every pagination input with [hasMore = false], on every host
    and at every instant, the footer nowhere contains [Use --start-at]. *)
Theorem pagination_no_hint_without_more
    (rt : Runtime) (now : Z) (p : Pagination.t) :
  Pagination.hasMore p = false ->
  ~ Str.occursIn "Use --start-at" (formatPagination rt now p).
Proof.
  intros Hmore. apply not_occursIn. rewrite formatPagination_join.
  replace (Str.join Str.LF (paginationParts p) ++ Str.LF
             ++ "*Information retrieved at: " ++ stampText now ++ " UTC*")
    with ((Str.join Str.LF (paginationParts p) ++ Str.LF
             ++ "*Information retrieved at: " ++ stampText now ++ " ") ++ "UTC*")
    by (rewrite !append_assoc; reflexivity).
  apply no_hint_before_UTC.
  rewrite !lacks_app.
  rewrite lacks_join;
    [| reflexivity | now apply paginationParts_lack_U].
  rewrite (stampChar_lacks "U" (stampText now));
    [reflexivity | reflexivity | apply stampText_stampChars].
Qed.

Lemma pagination_no_hint_without_more_witness :
  ~ Str.occursIn "Use --start-at"
      (formatPagination SampleHost.host 1700000000123
         (Samples.page (Some 3) false (Some "Use --start-at 7") None)).
Proof.
  apply (pagination_no_hint_without_more SampleHost.host 1700000000123
           (Samples.page (Some 3) false (Some "Use --start-at 7") None)).
  reflexivity.
Defined.

(** C9, as first stated, fails twice over.  A negative count with no total
    passes neither test of the source, and no count line is emitted; and a
    cursor that holds a line feed can open a second line with
    [*Showing ]. *)
Lemma pagination_count_line_not_unconditional :
  showingLines
    (formatPagination SampleHost.host 0
       (Samples.page (Some (-1)) false None None))
  = []
  /\ formatPagination SampleHost.host 0
       (Samples.page (Some (-1)) false None None)
     = Str.join Str.LF ["---"; "*Information retrieved at: 1970-01-01 00:00:00 UTC*"]
  /\ List.length
       (showingLines
          (formatPagination SampleHost.host 0
             (Samples.page None true (Some ("7" ++ Str.LF ++ "*Showing ")) None)))
     = 2%nat.
Proof. repeat split; vm_compute; reflexivity. Qed.

(** C9 (amended).  For every pagination input whose total is defined and
    not negative, or whose count is absent (it then is 0) or not negative,
    and whose cursor holds no line feed, exactly one line of the footer
    begins with [*Showing ]: the count line, which is the second line of
    the footer and reads [*Showing {count} of {total} total items.*] when
    the total is defined and not negative, and
    [*Showing {count} item(s).*] otherwise. *)
Theorem pagination_one_count_line
    (rt : Runtime) (now : Z) (p : Pagination.t) :
  (exists t, Pagination.total p = Some t /\ 0 <= t) \/ 0 <= countOf p ->
  (forall c, Pagination.nextCursor p = Some c -> Str.lacks Str.nl c = true) ->
  exists line,
    showingLines (formatPagination rt now p) = [line]
    /\ nth_error (Str.lines (formatPagination rt now p)) 1 = Some line
    /\ (Pagination.count p = None -> countOf p = 0)
    /\ (forall t, Pagination.total p = Some t -> 0 <= t ->
        line = "*Showing " ++ numToString (countOf p) ++ " of "
                 ++ numToString t ++ " total items.*")
    /\ (Pagination.total p = None
        \/ (exists t, Pagination.total p = Some t /\ t < 0) ->
        line = "*Showing " ++ numToString (countOf p) ++ " item"
                 ++ (if countOf p =? 1 then "" else "s") ++ ".*").
Proof.
  intros Hshown Hcur.
  assert (Hpart : exists line, showingPart p = [line]
            /\ (forall t, Pagination.total p = Some t -> 0 <= t ->
                line = "*Showing " ++ numToString (countOf p) ++ " of "
                         ++ numToString t ++ " total items.*")
            /\ (Pagination.total p = None
                \/ (exists t, Pagination.total p = Some t /\ t < 0) ->
                line = "*Showing " ++ numToString (countOf p) ++ " item"
                         ++ (if countOf p =? 1 then "" else "s") ++ ".*")).
  { unfold showingPart.
    destruct (Pagination.total p) as [t|] eqn:Et.
    - destruct (Z.leb_spec 0 t) as [Ht|Ht].
      + eexists. split; [reflexivity|]. split.
        * intros t' E _. now injection E as <-.
        * intros [E|(t' & E & Hneg)]; [discriminate|]. injection E as <-. lia.
      + destruct Hshown as [(t' & E & Ht')|Hcount];
          [injection E as <-; lia|].
        apply Z.leb_le in Hcount. rewrite Hcount.
        eexists. split; [reflexivity|]. split.
        * intros t' E Ht'. injection E as <-. lia.
        * intros _. now destruct (countOf p =? 1).
    - destruct Hshown as [(t' & E & _)|Hcount]; [discriminate|].
      apply Z.leb_le in Hcount. rewrite Hcount.
      eexists. split; [reflexivity|]. split.
      + intros t' E. discriminate.
      + intros _. now destruct (countOf p =? 1). }
  destruct Hpart as (line & Hline & Hof & Hitems).
  exists line. repeat split; try assumption.
  - now rewrite showingLines_footer, Hline.
  - rewrite formatPagination_lines by assumption.
    unfold paginationParts. now rewrite Hline.
  - unfold countOf. now intros ->.
Qed.

Lemma pagination_one_count_line_witness :
  exists line,
    showingLines
      (formatPagination SampleHost.host 0
         (Samples.page None true (Some "25") None))
    = [line]
    /\ line = "*Showing 0 items.*".
Proof.
  destruct (pagination_one_count_line SampleHost.host 0
              (Samples.page None true (Some "25") None))
    as (line & Hlines & _ & _ & _ & Hitems).
  - right. unfold countOf. simpl. lia.
  - intros c E. injection E as <-. reflexivity.
  - exists line. split; [exact Hlines|]. apply Hitems. now left.
Defined.

(** ** The value formatter *)

(** C2.  What the source does with a string that opens like an ISO
    date-time but that the host cannot parse: [new Date(value)] does not
    throw, it yields a date whose time value is NaN, and [toLocaleString]
    prints it as [Invalid Date].  The [catch] that holds
    [Invalid date string] is not reached. *)
Theorem formatValue_unparsable_date_string (rt : Runtime) (s : string) :
  looksLikeIsoDate s = true ->
  Date_parse rt s = None ->
  formatValue rt (VStr s) = "Invalid Date"
  /\ formatValue rt (VStr s) <> "Invalid date string".
Proof.
  intros Hiso Hparse. unfold formatValue.
  rewrite (iso_not_url s Hiso), Hiso, Hparse. split; [reflexivity | discriminate].
Qed.

Lemma formatValue_unparsable_date_string_witness :
  looksLikeIsoDate "2023-13-45T22:13:20" = true
  /\ Date_parse SampleHost.host "2023-13-45T22:13:20" = None
  /\ formatValue SampleHost.host (VStr "2023-13-45T22:13:20") = "Invalid Date".
Proof.
  split; [reflexivity|]. split; [reflexivity|].
  apply (formatValue_unparsable_date_string SampleHost.host
           "2023-13-45T22:13:20"); reflexivity.
Defined.

(** A string that opens like an ISO date-time and that the host parses is
    printed under the host's locale. *)
Lemma formatValue_parsed_date_string (rt : Runtime) (s : string) (tv : Z) :
  looksLikeIsoDate s = true ->
  Date_parse rt s = Some tv ->
  formatValue rt (VStr s) = localeString rt tv.
Proof.
  intros Hiso Hparse. unfold formatValue.
  now rewrite (iso_not_url s Hiso), Hiso, Hparse.
Qed.

(** A [Date] object never reaches its [catch] either: both sentinels of
    the source, [Invalid date] and [Invalid date string], are distinct
    strings that no input produces through the date branches. *)
Lemma formatValue_date_object (rt : Runtime) (d : JsDate.t) :
  formatValue rt (VDate d) = toLocaleString rt d
  /\ "Invalid date string" <> "Invalid date".
Proof. split; [reflexivity | discriminate]. Qed.

(** ** The create-metadata formatter *)

(** C1, as first stated, fails: the document of an empty [projects] array
    does not consist of the italic line and the trailer alone; it opens
    with the heading, the project line and a blank line, which the source
    pushes before it looks at the shape of the response. *)
Lemma empty_projects_document_opens_with_heading :
  formatCreateMeta SampleHost.host 0 Samples.emptyProjects "ABC"
  <> Str.join Str.LF
       ["*No issue types available for this project.*"; ""; "---";
        "*Retrieved at: 1970-01-01 00:00:00 UTC*"]
  /\ Str.lines (formatCreateMeta SampleHost.host 0 Samples.emptyProjects "ABC")
     = ["# Issue Creation Metadata";
        "Project: **ABC**";
        "";
        "*No issue types available for this project.*";
        "";
        "---";
        "*Retrieved at: 1970-01-01 00:00:00 UTC*"].
Proof.
  split; [|vm_compute; reflexivity].
  intros E. vm_compute in E. discriminate E.
Qed.

(** C1 (amended).  For a legacy response whose [projects] array is empty
    and that has not the single-type shape, the document is the heading
    [# Issue Creation Metadata], the project line, a blank line, the italic
    line [*No issue types available for this project.*], a blank line, the
    separator and the timestamp line, and nothing else. *)
Theorem empty_projects_document
    (rt : Runtime) (now : Z) (m : CreateMeta.t) (projectKey : string) :
  CreateMeta.projects m = Some [] ->
  CreateMeta.fields m = None \/ truthy (CreateMeta.name m) = false ->
  formatCreateMeta rt now m projectKey
  = Str.join Str.LF
      ["# Issue Creation Metadata";
       "Project: **" ++ projectKey ++ "**";
       "";
       "*No issue types available for this project.*";
       "";
       "---";
       "*Retrieved at: " ++ stampText now ++ " UTC*"].
Proof.
  intros Hprojects Hshape. apply fallback_document; [assumption | now right].
Qed.

Lemma empty_projects_document_witness :
  formatCreateMeta SampleHost.host 1700000000123 Samples.emptyProjects "ABC"
  = Str.join Str.LF
      ["# Issue Creation Metadata";
       "Project: **ABC**";
       "";
       "*No issue types available for this project.*";
       "";
       "---";
       "*Retrieved at: " ++ stampText 1700000000123 ++ " UTC*"].
Proof.
  apply (empty_projects_document SampleHost.host 1700000000123
           Samples.emptyProjects "ABC").
  - reflexivity.
  - left. reflexivity.
Defined.

(** C8.  The single-type branch is taken only when [fields] is present and
    [name] is truthy.  With [fields] absent, or with an absent or empty
    [name] whatever [fields] holds, the response is not rendered as
    single-type: without a project the document is the fallback document,
    and with one it is the legacy rendering.  With a non-empty [name] and
    [fields] present the single-type lines are rendered, whatever
    [projects] holds; for [fields] equal to the empty object both field
    sections read [*None*]. *)
Theorem single_type_needs_fields_and_name (rt : Runtime) (now : Z) :
  (forall m projectKey,
      truthy (CreateMeta.name m) = false ->
      CreateMeta.projects m = None \/ CreateMeta.projects m = Some [] ->
      formatCreateMeta rt now m projectKey
      = Str.join Str.LF
          ["# Issue Creation Metadata";
           "Project: **" ++ projectKey ++ "**";
           "";
           "*No issue types available for this project.*";
           "";
           "---";
           "*Retrieved at: " ++ stampText now ++ " UTC*"])
  /\ (forall m projectKey name,
         CreateMeta.name m = Some name -> name <> "" ->
         CreateMeta.fields m = Some [] ->
         formatCreateMeta rt now m projectKey
         = Str.join Str.LF
             (["# Issue Creation Metadata";
               "Project: **" ++ projectKey ++ "**";
               "";
               "## Issue Type: " ++ name]
                +++ (if truthy (CreateMeta.description m)
                     then ["*" ++ orElse (CreateMeta.description m) "" ++ "*"; ""]
                     else [])
                +++ ["### Required Fields";
                     "*None*";
                     "";
                     "### Optional Fields";
                     "*None*";
                     "";
                     "---";
                     "*Retrieved at: " ++ stampText now ++ " UTC*"]))
  /\ (forall m projectKey,
         CreateMeta.fields m = None ->
         CreateMeta.projects m = None \/ CreateMeta.projects m = Some [] ->
         formatCreateMeta rt now m projectKey
         = Str.join Str.LF
             ["# Issue Creation Metadata";
              "Project: **" ++ projectKey ++ "**";
              "";
              "*No issue types available for this project.*";
              "";
              "---";
              "*Retrieved at: " ++ stampText now ++ " UTC*"])
  /\ (forall m project rest,
         CreateMeta.fields m = None \/ truthy (CreateMeta.name m) = false ->
         CreateMeta.projects m = Some (project :: rest) ->
         createMetaBody rt m
         = ["**" ++ Project.name project ++ "** ("
              ++ Project.key project ++ ")"; ""]
             +++ forEachIndexed (Project.issuetypes project)
                   (issueTypeLines rt))
  /\ (forall m name fields,
         CreateMeta.name m = Some name -> name <> "" ->
         CreateMeta.fields m = Some fields ->
         createMetaBody rt m
         = [formatHeading ("Issue Type: " ++ name) 2]
             +++ (if truthy (CreateMeta.description m)
                  then ["*" ++ orElse (CreateMeta.description m) "" ++ "*"; ""]
                  else [])
             +++ [formatHeading "Required Fields" 3;
                  formatFieldList rt (requiredOf fields) false;
                  "";
                  formatHeading "Optional Fields" 3;
                  formatFieldList rt (optionalOf fields) false]).
Proof.
  split; [|split; [|split; [|split]]].
  - intros m k Hname Hprojects. apply fallback_document; [now right | assumption].
  - intros m k name Hname Hne Hfields.
    unfold formatCreateMeta, createMetaLines.
    rewrite (createMetaBody_single rt m [] name Hfields Hname Hne).
    rewrite stamp_eq. unfold singleTypeLines.
    f_equal. cbn [app]. do 4 f_equal.
    rewrite <- !app_assoc. f_equal. cbn [app]. do 7 f_equal.
    now rewrite !append_assoc.
  - intros m k Hfields Hprojects.
    apply fallback_document; [now left | assumption].
  - intros m project rest Hshape Hprojects.
    now apply (createMetaBody_legacy rt m project rest).
  - intros m name fields Hname Hne Hfields.
    now rewrite (createMetaBody_single rt m fields name Hfields Hname Hne).
Qed.

Lemma single_type_needs_fields_and_name_witness :
  formatCreateMeta SampleHost.host 0
    (Samples.single [Samples.summaryField] (Some "")) "ABC"
  = Str.join Str.LF
      ["# Issue Creation Metadata"; "Project: **ABC**"; "";
       "*No issue types available for this project.*"; ""; "---";
       "*Retrieved at: " ++ stampText 0 ++ " UTC*"]
  /\ formatCreateMeta SampleHost.host 0
       (Samples.single [Samples.summaryField] None) "ABC"
     = Str.join Str.LF
         ["# Issue Creation Metadata"; "Project: **ABC**"; "";
          "*No issue types available for this project.*"; ""; "---";
          "*Retrieved at: " ++ stampText 0 ++ " UTC*"]
  /\ formatCreateMeta SampleHost.host 0 (Samples.single [] (Some "Bug")) "ABC"
     = Str.join Str.LF
         ["# Issue Creation Metadata"; "Project: **ABC**"; "";
          "## Issue Type: Bug";
          "### Required Fields"; "*None*"; "";
          "### Optional Fields"; "*None*"; ""; "---";
          "*Retrieved at: " ++ stampText 0 ++ " UTC*"]
  /\ formatCreateMeta SampleHost.host 0 (nameOnly "Bug" None) "ABC"
     = Str.join Str.LF
         ["# Issue Creation Metadata"; "Project: **ABC**"; "";
          "*No issue types available for this project.*"; ""; "---";
          "*Retrieved at: " ++ stampText 0 ++ " UTC*"]
  /\ createMetaBody SampleHost.host (nameOnly "Bug" (Some [Samples.alpha]))
     = ["**Alpha** (ABC)"; ""]
         +++ forEachIndexed [Samples.task] (issueTypeLines SampleHost.host).
Proof.
  destruct (single_type_needs_fields_and_name SampleHost.host 0)
    as (Hfb & Hst & Hnofields & Hlegacy & _).
  split; [|split; [|split; [|split]]].
  - apply (Hfb (Samples.single [Samples.summaryField] (Some "")) "ABC").
    + reflexivity.
    + left. reflexivity.
  - apply (Hfb (Samples.single [Samples.summaryField] None) "ABC").
    + reflexivity.
    + left. reflexivity.
  - apply (Hst (Samples.single [] (Some "Bug")) "ABC" "Bug").
    + reflexivity.
    + discriminate.
    + reflexivity.
  - apply (Hnofields (nameOnly "Bug" None) "ABC").
    + reflexivity.
    + left. reflexivity.
  - apply (Hlegacy (nameOnly "Bug" (Some [Samples.alpha])) Samples.alpha []).
    + left. reflexivity.
    + reflexivity.
Defined.

(** C4.  In the legacy multi-type path, an issue type with more than ten
    optional fields has exactly its first ten rendered (two lines each),
    followed by the note of the remaining count: the document is the
    heading lines, the project line, the issue types before this one, the
    lines of this one, which end with the ten fields and the note, then
    the issue types after it and the trailer, and nothing else.  The
    single-type path passes no limit: its document ends, before the
    trailer, with every optional field. *)
Theorem optional_fields_truncated_in_legacy_path
    (rt : Runtime) (now : Z) (m : CreateMeta.t) (projectKey : string)
    (project : Project.t) (rest : list Project.t) (issueType : IssueType.t) :
  CreateMeta.fields m = None \/ truthy (CreateMeta.name m) = false ->
  CreateMeta.projects m = Some (project :: rest) ->
  In issueType (Project.issuetypes project) ->
  (10 < List.length (optionalOf (IssueType.fields issueType)))%nat ->
  formatFieldList rt (optionalOf (IssueType.fields issueType)) true
  = Str.join Str.LF
      (flat_map (fieldEntry rt)
                (firstn 10 (optionalOf (IssueType.fields issueType)))
         +++ ["*... and "
                ++ numToString
                     (Z.of_nat (List.length
                                  (optionalOf (IssueType.fields issueType))) - 10)
                ++ " more optional fields*"])
  /\ List.length (firstn 10 (optionalOf (IssueType.fields issueType))) = 10%nat
  /\ List.length
       (flat_map (fieldEntry rt)
                 (firstn 10 (optionalOf (IssueType.fields issueType)))) = 20%nat
  /\ Str.occursIn
       (formatFieldList rt (optionalOf (IssueType.fields issueType)) true)
       (formatCreateMeta rt now m projectKey)
  /\ (exists earlier later,
         Project.issuetypes project = (earlier ++ issueType :: later)%list
         /\ formatCreateMeta rt now m projectKey
            = Str.join Str.LF
                (["# Issue Creation Metadata";
                  "Project: **" ++ projectKey ++ "**";
                  "";
                  "**" ++ Project.name project ++ "** ("
                    ++ Project.key project ++ ")";
                  ""]
                   +++ flat_map (fun t => issueTypeLines rt t 0
                                            +++ [""; "---"; ""]) earlier
                   +++ [formatHeading (IssueType.name issueType) 2;
                        "**ID**: " ++ IssueType.id issueType]
                   +++ (if truthy (IssueType.description issueType)
                        then ["**Description**: "
                                ++ orElse (IssueType.description issueType) ""]
                        else [])
                   +++ ["**Subtask**: "
                          ++ (if IssueType.subtask issueType then "Yes" else "No");
                        "";
                        "### Required Fields";
                        formatFieldList rt
                          (requiredOf (IssueType.fields issueType)) false;
                        "";
                        "### Optional Fields";
                        Str.join Str.LF
                          (flat_map (fieldEntry rt)
                             (firstn 10
                                (optionalOf (IssueType.fields issueType)))
                             +++ ["*... and "
                                    ++ numToString
                                         (Z.of_nat
                                            (List.length
                                               (optionalOf
                                                  (IssueType.fields issueType)))
                                          - 10)
                                    ++ " more optional fields*"])]
                   +++ flat_map (fun t => [""; "---"; ""]
                                            +++ issueTypeLines rt t 0) later
                   +++ [""; "---";
                        "*Retrieved at: " ++ stampText now ++ " UTC*"]))
  /\ (forall m' projectKey' fields name,
         CreateMeta.fields m' = Some fields ->
         CreateMeta.name m' = Some name -> name <> "" ->
         optionalOf fields <> [] ->
         formatFieldList rt (optionalOf fields) false
         = Str.join Str.LF (flat_map (fieldEntry rt) (optionalOf fields))
         /\ Str.occursIn (formatFieldList rt (optionalOf fields) false)
              (formatCreateMeta rt now m' projectKey')
         /\ formatCreateMeta rt now m' projectKey'
            = Str.join Str.LF
                (["# Issue Creation Metadata";
                  "Project: **" ++ projectKey' ++ "**";
                  "";
                  formatHeading ("Issue Type: " ++ name) 2]
                   +++ (if truthy (CreateMeta.description m')
                        then ["*" ++ orElse (CreateMeta.description m') ""
                                ++ "*"; ""]
                        else [])
                   +++ ["### Required Fields";
                        formatFieldList rt (requiredOf fields) false;
                        "";
                        "### Optional Fields";
                        Str.join Str.LF
                          (flat_map (fieldEntry rt) (optionalOf fields))]
                   +++ [""; "---";
                        "*Retrieved at: " ++ stampText now ++ " UTC*"])).
Proof.
  intros Hshape Hprojects Hin Hlen.
  assert (Hten : List.length
                   (firstn 10 (optionalOf (IssueType.fields issueType)))
                 = 10%nat).
  { rewrite length_firstn. lia. }
  split; [now apply formatFieldList_limited|].
  split; [exact Hten|].
  split; [rewrite fieldEntries_length, Hten; reflexivity|].
  split; [|split].
  - apply createMeta_line_occurs.
    rewrite (createMetaBody_legacy rt m project rest Hshape Hprojects).
    apply in_or_app. right.
    destruct (forEachIndexed_round (Project.issuetypes project)
                (issueTypeLines rt) issueType Hin) as [index Hincl].
    apply Hincl. apply issueTypeLines_optional.
    intros E. rewrite E in Hlen. simpl in Hlen. lia.
  - destruct (in_split _ _ Hin) as (earlier & later & Hsplit).
    exists earlier, later. split; [exact Hsplit|].
    rewrite formatCreateMeta_lines.
    rewrite (createMetaBody_legacy rt m project rest Hshape Hprojects).
    rewrite Hsplit, forEachIndexed_around.
    rewrite (issueTypeLines_truncated rt issueType Hlen).
    f_equal. rewrite <- !app_assoc. reflexivity.
  - intros m' k' fields name Hfields Hname Hne Hopt. split; [|split].
    + now apply formatFieldList_unlimited.
    + apply createMeta_line_occurs.
      rewrite (createMetaBody_single rt m' fields name Hfields Hname Hne).
      apply singleTypeLines_optional.
    + rewrite formatCreateMeta_lines.
      rewrite (createMetaBody_single rt m' fields name Hfields Hname Hne).
      rewrite (singleTypeLines_complete rt name _ fields Hopt).
      f_equal. rewrite <- !app_assoc. reflexivity.
Qed.

Lemma optional_fields_truncated_in_legacy_path_witness :
  Str.lines
    (formatFieldList SampleHost.host
       (optionalOf (IssueType.fields Samples.task)) true)
  = ["- **Field 1** (`customfield_1`)"; "  Type: string";
     "- **Field 2** (`customfield_2`)"; "  Type: string";
     "- **Field 3** (`customfield_3`)"; "  Type: string";
     "- **Field 4** (`customfield_4`)"; "  Type: string";
     "- **Field 5** (`customfield_5`)"; "  Type: string";
     "- **Field 6** (`customfield_6`)"; "  Type: string";
     "- **Field 7** (`customfield_7`)"; "  Type: string";
     "- **Field 8** (`customfield_8`)"; "  Type: string";
     "- **Field 9** (`customfield_9`)"; "  Type: string";
     "- **Field 10** (`customfield_10`)"; "  Type: string";
     "*... and 2 more optional fields*"]
  /\ Str.occursIn
       (formatFieldList SampleHost.host
          (optionalOf (IssueType.fields Samples.task)) true)
       (formatCreateMeta SampleHost.host 0 Samples.legacy "ABC")
  /\ Str.lines (formatCreateMeta SampleHost.host 0 Samples.legacy "ABC")
     = ["# Issue Creation Metadata"; "Project: **ABC**"; "";
        "**Alpha** (ABC)"; "";
        "## Task"; "**ID**: 10002"; "**Subtask**: No"; "";
        "### Required Fields";
        "- **Summary** (`summary`)"; "  Type: string | System: summary";
        "";
        "### Optional Fields";
        "- **Field 1** (`customfield_1`)"; "  Type: string";
        "- **Field 2** (`customfield_2`)"; "  Type: string";
        "- **Field 3** (`customfield_3`)"; "  Type: string";
        "- **Field 4** (`customfield_4`)"; "  Type: string";
        "- **Field 5** (`customfield_5`)"; "  Type: string";
        "- **Field 6** (`customfield_6`)"; "  Type: string";
        "- **Field 7** (`customfield_7`)"; "  Type: string";
        "- **Field 8** (`customfield_8`)"; "  Type: string";
        "- **Field 9** (`customfield_9`)"; "  Type: string";
        "- **Field 10** (`customfield_10`)"; "  Type: string";
        "*... and 2 more optional fields*";
        ""; "---"; "*Retrieved at: 1970-01-01 00:00:00 UTC*"].
Proof.
  destruct (optional_fields_truncated_in_legacy_path SampleHost.host 0
              Samples.legacy "ABC" Samples.alpha [] Samples.task)
    as (Hlist & _ & _ & Hdoc & (earlier & later & Hsplit & Hlines) & _).
  - left. reflexivity.
  - reflexivity.
  - left. reflexivity.
  - vm_compute. lia.
  - split; [|split; [exact Hdoc|]].
    + rewrite Hlist. vm_compute. reflexivity.
    + assert (E : earlier = [] /\ later = []).
      { destruct earlier as [|e [|e' es]]; simpl in Hsplit.
        - injection Hsplit as <-. now split.
        - discriminate Hsplit.
        - discriminate Hsplit. }
      destruct E as [-> ->]. rewrite Hlines. vm_compute. reflexivity.
Defined.

(** ** The create-issue-result formatter *)



(** ** Determinism *)

(** C7.  Each formatter is a function of its input and of the instant, and
    the instant reaches the last line only: at two instants, the lines
    before the last are the same, and the last line is the timestamp line
    of the instant. *)
Theorem formatters_differ_only_in_timestamp_line (rt : Runtime) :
  (forall m projectKey now1 now2,
      removelast (Str.lines (formatCreateMeta rt now1 m projectKey))
      = removelast (Str.lines (formatCreateMeta rt now2 m projectKey)))
  /\ (forall m projectKey now,
         formatCreateMeta rt now m projectKey
         = Str.join Str.LF (createMetaLines rt m projectKey) ++ Str.LF
             ++ "*Retrieved at: " ++ stampText now ++ " UTC*"
         /\ last (Str.lines (formatCreateMeta rt now m projectKey)) ""
            = "*Retrieved at: " ++ stampText now ++ " UTC*")
  /\ (forall r now1 now2,
         removelast (Str.lines (formatCreateIssueResponse rt now1 r))
         = removelast (Str.lines (formatCreateIssueResponse rt now2 r)))
  /\ (forall r now,
         formatCreateIssueResponse rt now r
         = Str.join Str.LF (createIssueLines rt r) ++ Str.LF
             ++ "*Issue created at: " ++ stampText now ++ " UTC*"
         /\ last (Str.lines (formatCreateIssueResponse rt now r)) ""
            = "*Issue created at: " ++ stampText now ++ " UTC*")
  /\ (forall p now1 now2,
         removelast (Str.lines (formatPagination rt now1 p))
         = removelast (Str.lines (formatPagination rt now2 p)))
  /\ (forall p now,
         formatPagination rt now p
         = Str.join Str.LF (paginationParts p) ++ Str.LF
             ++ "*Information retrieved at: " ++ stampText now ++ " UTC*"
         /\ last (Str.lines (formatPagination rt now p)) ""
            = "*Information retrieved at: " ++ stampText now ++ " UTC*").
Proof.
  assert (Hmeta : forall now, Str.lacks Str.nl
            ("*Retrieved at: " ++ stampText now ++ " UTC*") = true)
    by (intros; now apply stamp_line_one_line).
  assert (Hissue : forall now, Str.lacks Str.nl
            ("*Issue created at: " ++ stampText now ++ " UTC*") = true)
    by (intros; now apply stamp_line_one_line).
  assert (Hpage : forall now, Str.lacks Str.nl
            ("*Information retrieved at: " ++ stampText now ++ " UTC*") = true)
    by (intros; now apply stamp_line_one_line).
  repeat split; intros.
  - rewrite !formatCreateMeta_split.
    destruct (removelast_lines_trailer
                (Str.join Str.LF (createMetaLines rt m projectKey))
                _ (Hmeta now1)) as [-> _].
    destruct (removelast_lines_trailer
                (Str.join Str.LF (createMetaLines rt m projectKey))
                _ (Hmeta now2)) as [-> _].
    reflexivity.
  - apply formatCreateMeta_split.
  - rewrite formatCreateMeta_split.
    now apply removelast_lines_trailer.
  - rewrite !formatCreateIssueResponse_split.
    destruct (removelast_lines_trailer
                (Str.join Str.LF (createIssueLines rt r))
                _ (Hissue now1)) as [-> _].
    destruct (removelast_lines_trailer
                (Str.join Str.LF (createIssueLines rt r))
                _ (Hissue now2)) as [-> _].
    reflexivity.
  - apply formatCreateIssueResponse_split.
  - rewrite formatCreateIssueResponse_split.
    now apply removelast_lines_trailer.
  - rewrite !formatPagination_join.
    destruct (removelast_lines_trailer
                (Str.join Str.LF (paginationParts p))
                _ (Hpage now1)) as [-> _].
    destruct (removelast_lines_trailer
                (Str.join Str.LF (paginationParts p))
                _ (Hpage now2)) as [-> _].
    reflexivity.
  - apply formatPagination_join.
  - rewrite formatPagination_join.
    now apply removelast_lines_trailer.
Qed.

(** * Further properties of the formatters *)

Module MoreFacts.
Import StrFacts TextFacts StampFacts PaginationFacts CreateFacts.

Lemma join_nonempty_head (sep : string) (c : ascii) (x : string)
    (rest : list string) :
  Str.join sep (String c x :: rest) <> "".
Proof.
  destruct (join_head sep (String c x) rest) as [tl ->]. discriminate.
Qed.

Lemma join_app (sep : string) (l1 l2 : list string) :
  l1 <> [] -> l2 <> [] ->
  Str.join sep (l1 ++ l2) = Str.join sep l1 ++ sep ++ Str.join sep l2.
Proof.
  intros H1 H2. induction l1 as [|x l1 IH]; [now elim H1|].
  destruct l1 as [|y l1].
  - destruct l2 as [|z l2]; [now elim H2 | reflexivity].
  - change ((x :: y :: l1) ++ l2)%list with (x :: (y :: l1 ++ l2))%list.
    rewrite !join_cons.
    change (y :: l1 ++ l2)%list with ((y :: l1) ++ l2)%list.
    rewrite IH by discriminate. now rewrite !append_assoc.
Qed.

(** On a title that is a string, or absent, [formatUrlAny] is
    [formatUrl]. *)
Lemma formatUrlAny_typed (rt : Runtime) (url : option string) :
  (forall title, formatUrlAny rt url (VStr title) = formatUrl url (Some title))
  /\ formatUrlAny rt url VUndefined = formatUrl url None.
Proof.
  unfold formatUrlAny, formatUrl. split; [intros title|];
    destruct (negb (truthy url)); reflexivity.
Qed.

End MoreFacts.

Import MoreFacts.

(** ** formatter.util.ts *)

(** X1.  [formatHeading] clamps the level to 1..6: the heading is between
    one and six [#], a space and the text; a level of 1 or less gives one
    [#], a level of 6 or more gives six, and a level in between gives as
    many as the level. *)
Theorem heading_level_clamped (text : string) (level : Z) :
  exists k : nat,
    (1 <= k <= 6)%nat
    /\ formatHeading text level = Str.repeat "#" k ++ " " ++ text
    /\ (level <= 1 -> k = 1%nat)
    /\ (6 <= level -> k = 6%nat)
    /\ (1 <= level <= 6 -> Z.of_nat k = level).
Proof.
  exists (Z.to_nat (Z.min (Z.max level 1) 6)).
  repeat split; try reflexivity; try lia.
Qed.

Lemma heading_level_clamped_witness :
  formatHeading "Notes" 9 = "###### Notes"
  /\ formatHeading "Notes" (-3) = "# Notes".
Proof.
  split.
  - destruct (heading_level_clamped "Notes" 9) as (k & _ & E & _ & Hhigh & _).
    rewrite E, (Hhigh ltac:(lia)). reflexivity.
  - destruct (heading_level_clamped "Notes" (-3)) as (k & _ & E & Hlow & _).
    rewrite E, (Hlow ltac:(lia)). reflexivity.
Defined.

(** X2.  [formatBulletList] skips the entries whose value is [null] or
    [undefined]: removing them from the input changes nothing, and a list
    that holds no other entry, the empty list included, renders as the
    empty string. *)
Theorem bullets_skip_nullish (rt : Runtime) (items : list (string * JsValue))
    (keyFormatter : option (string -> string)) :
  formatBulletList rt items keyFormatter
  = formatBulletList rt (filter (fun e => negb (nullish (snd e))) items)
      keyFormatter
  /\ (forallb (fun e => nullish (snd e)) items = true ->
      formatBulletList rt items keyFormatter = "").
Proof.
  unfold formatBulletList. split.
  - f_equal. induction items as [|[k v] items IH]; [reflexivity|].
    destruct v; cbn [filter snd nullish negb flat_map app]; now rewrite IH.
  - intros H. replace (flat_map _ items) with (@nil string); [reflexivity|].
    induction items as [|[k v] items IH]; [reflexivity|].
    cbn [forallb snd] in H. apply andb_true_iff in H as [Hv Hrest].
    destruct v; try discriminate Hv; cbn [flat_map app]; now apply IH.
Qed.

Lemma bullets_skip_nullish_witness :
  formatBulletList SampleHost.host
    [("Assignee", VNull); ("Sprint", VUndefined)] None = "".
Proof.
  apply (bullets_skip_nullish SampleHost.host
           [("Assignee", VNull); ("Sprint", VUndefined)] None).
  reflexivity.
Defined.



(** X4.  The bullet list of a record follows the order of its entries
    and can be cut anywhere: when the entries of the record, as
    [Object.entries] yields them, are the entries [a] followed by the
    entries [b], the result is the bullet list of [a], a line feed and the
    bullet list of [b], or the one of the two that is not empty.  (The
    statement is about the list of entries that the loop runs through, not
    about merging two records, which reorders integer-like keys and merges
    repeated ones.) *)
Theorem bullets_compose (rt : Runtime) (a b : list (string * JsValue))
    (keyFormatter : option (string -> string)) :
  formatBulletList rt (a ++ b) keyFormatter
  = if isEmpty (formatBulletList rt a keyFormatter)
    then formatBulletList rt b keyFormatter
    else if isEmpty (formatBulletList rt b keyFormatter)
    then formatBulletList rt a keyFormatter
    else formatBulletList rt a keyFormatter ++ Str.LF
           ++ formatBulletList rt b keyFormatter.
Proof.
  unfold formatBulletList. rewrite flat_map_app.
  set (f := fun '(key, value) => _).
  assert (Hne : forall l, flat_map f l <> [] ->
                          isEmpty (Str.join Str.LF (flat_map f l)) = false).
  { intros l Hl.
    assert (Hhead : exists x rest, flat_map f l = String "-" x :: rest).
    { clear - Hl. induction l as [|[k v] l IH]; [now elim Hl|].
      subst f. destruct v; cbn [flat_map app] in *;
        try (now apply IH); eexists _, _; reflexivity. }
    destruct Hhead as (x & rest & ->).
    pose proof (join_nonempty_head Str.LF "-" x rest) as Hj.
    unfold isEmpty. now destruct (Str.join Str.LF (String "-" x :: rest)). }
  destruct (flat_map f a) as [|xa la] eqn:Ea.
  - reflexivity.
  - rewrite <- Ea in *. rewrite (Hne a) by (rewrite Ea; discriminate).
    destruct (flat_map f b) as [|xb lb] eqn:Eb.
    + simpl. now rewrite app_nil_r.
    + rewrite <- Eb in *. rewrite (Hne b) by (rewrite Eb; discriminate).
      apply join_app; [rewrite Ea | rewrite Eb]; discriminate.
Qed.

(** X5.  [formatNumberedList] answers [No items.] for an empty list; a
    single item is rendered alone, without separator; and in general the
    result joins, with a separator line between blank lines, each item
    formatted together with its own position. *)
Theorem numbered_list_items {T : Type} (formatter : T -> nat -> string) :
  formatNumberedList [] formatter = "No items."
  /\ (forall x, formatNumberedList [x] formatter = formatter x O)
  /\ (forall items d,
         items <> [] ->
         formatNumberedList items formatter
         = Str.join (Str.LF ++ Str.LF ++ "---" ++ Str.LF ++ Str.LF)
             (map (fun i => formatter (nth i items d) i)
                  (seq 0 (List.length items)))).
Proof.
  split; [reflexivity|]. split; [reflexivity|].
  intros items d Hne. unfold formatNumberedList.
  destruct items as [|x items]; [now elim Hne|].
  f_equal. generalize (x :: items) as l. clear.
  assert (H : forall (l : list T) s,
             map (fun '(index, item) => formatter item index)
                 (combine (seq s (List.length l)) l)
             = map (fun i => formatter (nth (i - s) l d) i)
                   (seq s (List.length l))).
  { induction l as [|y l IH]; intros s; [reflexivity|].
    cbn [List.length seq combine map]. rewrite Nat.sub_diag. f_equal.
    rewrite IH. apply map_ext_in. intros i Hi. apply in_seq in Hi.
    replace (i - s)%nat with (S (i - S s)) by lia. reflexivity. }
  intros l. rewrite H. apply map_ext. intros i. now rewrite Nat.sub_0_r.
Qed.

Lemma numbered_list_items_witness :
  formatNumberedList ["a"; "b"] (fun item index => numToString (Z.of_nat index) ++ item)
  = "0a" ++ Str.LF ++ Str.LF ++ "---" ++ Str.LF ++ Str.LF ++ "1b".
Proof.
  destruct (numbered_list_items
              (fun item index => numToString (Z.of_nat index) ++ item))
    as (_ & _ & H).
  rewrite (H ["a"; "b"] ""); [reflexivity | discriminate].
Defined.

(** ** Dates *)

Module DateFacts.
Import StrFacts TextFacts StampFacts.

Lemma allFrom_spec (fuel : nat) (z : Z) (P : Z -> bool) :
  allFrom fuel z P = true ->
  forall x, z <= x < z + Z.of_nat fuel -> P x = true.
Proof.
  revert z. induction fuel as [|fuel IH]; intros z H x Hx; [lia|].
  cbn [allFrom] in H. destruct (P z) eqn:Ez; [|discriminate].
  destruct (Z.eq_dec x z) as [->|Hne]; [exact Ez|].
  apply (IH (z + 1) H). lia.
Qed.

Lemma fits_app (sh1 sh2 : list (option ascii)) (s1 s2 : string) :
  fits sh1 s1 = true -> fits sh2 s2 = true ->
  fits (sh1 ++ sh2) (s1 ++ s2) = true.
Proof.
  unfold fits. revert s1. induction sh1 as [|o sh1 IH]; intros s1 H1 H2.
  - destruct s1; [exact H2 | discriminate].
  - destruct s1 as [|c s1]; [destruct o; discriminate|].
    apply andb_true_iff in H1 as [Hm Hl].
    assert (Hc : (match o with None => isDigit c | Some d => Ascii.eqb c d end)
                 = true
                 /\ matchShape sh1 s1 = true).
    { destruct o; cbn [matchShape] in Hm; now apply andb_true_iff in Hm. }
    destruct Hc as [Hc Hrest].
    assert (IH' : matchShape (sh1 ++ sh2) (s1 ++ s2)
                  && (String.length (s1 ++ s2) =? List.length (sh1 ++ sh2))%nat
                  = true).
    { apply IH; [|exact H2]. now rewrite Hrest. }
    apply andb_true_iff in IH' as [IHm IHl].
    apply andb_true_iff. split.
    + destruct o; cbn [app matchShape append]; now rewrite Hc, IHm.
    + exact IHl.
Qed.

Lemma pad2_fits (n : Z) :
  0 <= n < 100 -> fits [None; None] (JsDate.pad 2 n) = true.
Proof.
  intros Hn.
  apply (allFrom_spec (Z.to_nat 100) 0 (fun n => fits [None; None] (JsDate.pad 2 n)));
    [vm_compute; reflexivity | lia].
Qed.

Lemma pad4_fits (y : Z) :
  0 <= y <= 9999 -> fits [None; None; None; None] (JsDate.pad 4 y) = true.
Proof.
  intros Hy.
  apply (allFrom_spec (Z.to_nat 10000) 0
           (fun y => fits [None; None; None; None] (JsDate.pad 4 y)));
    [vm_compute; reflexivity | lia].
Qed.

(** Within an era, the month is 1..12, the day 1..31, and the year of the
    era turns 400 with the first of January that closes it. *)
Lemma civilInEra_bounds (doe : Z) :
  0 <= doe < 146097 ->
  let '(yy, m, d) := civilInEra doe in
  1 <= m <= 12 /\ 1 <= d <= 31 /\ 0 <= yy
  /\ (doe <= 146036 -> yy <= 399) /\ (146037 <= doe -> yy = 400).
Proof.
  intros H. unfold civilInEra. cbv zeta.
  set (yoe := (doe - doe / 1460 + doe / 36524 - doe / 146096) / 365).
  set (doy := doe - (365 * yoe + yoe / 4 - yoe / 100)).
  set (mp := (5 * doy + 2) / 153).
  assert (Hyoe : 0 <= yoe <= 399) by (subst yoe; Z.div_mod_to_equations; lia).
  assert (Hdoy : 0 <= doy <= 365)
    by (subst doy yoe; Z.div_mod_to_equations; lia).
  assert (Hmp : 0 <= mp <= 11) by (subst mp; Z.div_mod_to_equations; lia).
  assert (Hlate : 146037 <= doe -> yoe = 399 /\ 306 <= doy)
    by (subst doy yoe; Z.div_mod_to_equations; lia).
  assert (Hearly : doe <= 146036 -> yoe <= 398 \/ doy <= 305)
    by (subst doy yoe; Z.div_mod_to_equations; lia).
  assert (Hd : 1 <= doy - (153 * mp + 2) / 5 + 1 <= 31)
    by (subst mp; Z.div_mod_to_equations; lia).
  assert (Hmp10 : 306 <= doy <-> 10 <= mp)
    by (subst mp; Z.div_mod_to_equations; lia).
  destruct (Z.ltb_spec mp 10);
    [destruct (Z.leb_spec (mp + 3) 2) | destruct (Z.leb_spec (mp - 9) 2)];
    repeat split; lia.
Qed.

Lemma civilFromDays_era (days : Z) :
  JsDate.civilFromDays days
  = let z := days + 719468 in
    let '(yy, m, d) := civilInEra (z mod 146097) in
    (yy + z / 146097 * 400, m, d).
Proof.
  unfold JsDate.civilFromDays, civilInEra. cbv zeta.
  replace (days + 719468 - (days + 719468) / 146097 * 146097)
    with ((days + 719468) mod 146097)
    by (rewrite Z.mod_eq by lia; lia).
  f_equal. f_equal. lia.
Qed.

(** In the years 0..9999 the civil date has a four-digit year, a month
    1..12 and a day 1..31. *)
Lemma civilFromDays_four_digit_year (tv : Z) :
  firstOfYear0 <= tv <= lastOfYear9999 ->
  let '(y, m, d) := JsDate.civilFromDays (tv / JsDate.msPerDay) in
  0 <= y <= 9999 /\ 1 <= m <= 12 /\ 1 <= d <= 31.
Proof.
  unfold firstOfYear0, lastOfYear9999, JsDate.msPerDay. intros Htv.
  rewrite civilFromDays_era. cbv zeta.
  set (z := tv / 86400000 + 719468).
  assert (Hz : -60 <= z <= 3652364) by (subst z; Z.div_mod_to_equations; lia).
  assert (Hdoe : 0 <= z mod 146097 < 146097) by (apply Z.mod_pos_bound; lia).
  pose proof (civilInEra_bounds _ Hdoe) as Hb.
  destruct (civilInEra (z mod 146097)) as [[yy m] d].
  destruct Hb as (Hm & Hd & Hyy & Hearly & Hlate).
  assert (Hera : -1 <= z / 146097 <= 24) by (Z.div_mod_to_equations; lia).
  assert (Hsplit : z = 146097 * (z / 146097) + z mod 146097)
    by (apply Z.div_mod; lia).
  destruct (Z.le_gt_cases (z mod 146097) 146036); lia.
Qed.

(** The text of an instant of the years 0..9999 is laid out as
    [YYYY-MM-DD HH:MM:SS]. *)
Lemma stampText_fits (tv : Z) :
  firstOfYear0 <= tv <= lastOfYear9999 ->
  fits stampShape (stampText tv ++ " UTC") = true.
Proof.
  intros Htv. pose proof (civilFromDays_four_digit_year tv Htv) as Hc.
  unfold stampText, JsDate.isoDate, JsDate.isoClock.
  destruct (JsDate.civilFromDays (tv / JsDate.msPerDay)) as [[y m] d].
  destruct Hc as (Hy & Hm & Hd).
  unfold JsDate.isoYear.
  replace ((0 <=? y) && (y <=? 9999)) with true by (symmetry; lia).
  set (ms := tv mod JsDate.msPerDay).
  assert (Hms : 0 <= ms < 86400000) by (apply Z.mod_pos_bound; reflexivity).
  rewrite !append_assoc.
  change stampShape
    with ([None; None; None; None] ++ [Some "-"%char] ++ [None; None]
            ++ [Some "-"%char] ++ [None; None] ++ [Some " "%char]
            ++ [None; None] ++ [Some ":"%char] ++ [None; None]
            ++ [Some ":"%char] ++ [None; None]
            ++ [Some " "; Some "U"; Some "T"; Some "C"]%char)%list.
  repeat (apply fits_app;
          [first [ apply pad4_fits; lia
                 | apply pad2_fits; Z.div_mod_to_equations; lia
                 | reflexivity ] |]).
  reflexivity.
Qed.

(** What [formatDate] makes of the ISO text of a valid date. *)
Lemma iso_rewritten (tv : Z) :
  replaceFracZ (Str.replace "T" " " (JsDate.toISOString tv))
  = stampText tv ++ " UTC".
Proof.
  unfold JsDate.toISOString.
  change "T" with (String "T" "") at 1.
  change (JsDate.isoDate tv ++ "T" ++ JsDate.isoClock tv ++ "."
            ++ JsDate.isoMillis tv ++ "Z")
    with (JsDate.isoDate tv
            ++ String "T" (JsDate.isoClock tv ++ "."
                             ++ JsDate.isoMillis tv ++ "Z")).
  rewrite replace_char
    by (apply stampChar_lacks; [reflexivity | apply isoDate_stampChars]).
  replace (JsDate.isoDate tv ++ " " ++ JsDate.isoClock tv ++ "."
             ++ JsDate.isoMillis tv ++ "Z")
    with (stampText tv ++ "." ++ JsDate.isoMillis tv ++ "Z")
    by (unfold stampText; now rewrite !append_assoc).
  apply replaceFracZ_suffix.
  - apply stampChar_lacks; [reflexivity | apply stampText_stampChars].
  - simpl. apply digitsZ_digits.
    + apply pad_digits. apply Z.mod_pos_bound. lia.
    + left. apply pad_nonempty.
Qed.

Lemma stamp_not_catch_sentinel (tv : Z) :
  stampText tv ++ " UTC" <> "Invalid date".
Proof.
  pose proof (stampText_stampChars tv) as H.
  destruct (stampText tv) as [|c s]; [discriminate|].
  simpl in H. apply andb_true_iff in H as [Hc _].
  intros E. injection E as -> _. discriminate Hc.
Qed.

End DateFacts.

Import DateFacts.

(** X6.  A string that starts with [http://] or [https://] is rendered by
    [formatValue] as a markdown link whose text is the URL itself. *)
Theorem url_strings_become_links (rt : Runtime) (s : string) :
  Str.startsWith s "http://" = true \/ Str.startsWith s "https://" = true ->
  formatValue rt (VStr s) = "[" ++ s ++ "](" ++ s ++ ")".
Proof.
  intros H. unfold formatValue.
  replace (Str.startsWith s "http://" || Str.startsWith s "https://") with true
    by (symmetry; apply orb_true_iff; exact H).
  destruct s as [|c s]; [destruct H; discriminate | reflexivity].
Qed.

Lemma url_strings_become_links_witness :
  formatValue SampleHost.host (VStr "https://x.atlassian.net/browse/ABC-1")
  = "[https://x.atlassian.net/browse/ABC-1](https://x.atlassian.net/browse/ABC-1)".
Proof.
  apply (url_strings_become_links SampleHost.host
           "https://x.atlassian.net/browse/ABC-1").
  right. reflexivity.
Defined.



(** X8.  [formatDate] has three outcomes: [Not available] for an absent
    input, [Invalid date input] when the date has no time value (an
    unparsable string, an invalid [Date], a number out of range), and the
    date and clock of the instant followed by [UTC] otherwise.  The
    [Invalid date] of its [catch] is never returned. *)
Theorem formatDate_outcomes (rt : Runtime) :
  formatDate rt None = "Not available"
  /\ (forall input,
         toDate rt input = None ->
         formatDate rt (Some input) = "Invalid date input")
  /\ (forall input tv,
         toDate rt input = Some tv ->
         formatDate rt (Some input) = stampText tv ++ " UTC")
  /\ (forall input, formatDate rt input <> "Invalid date").
Proof.
  assert (Hnone : forall input, toDate rt input = None ->
                    formatDate rt (Some input) = "Invalid date input").
  { intros input H. unfold formatDate.
    change (match input with
            | FromString s => Date_parse rt s
            | FromDate d => d
            | FromNumber n => JsDate.timeClip n
            end) with (toDate rt input).
    now rewrite H. }
  assert (Hsome : forall input tv, toDate rt input = Some tv ->
                    formatDate rt (Some input) = stampText tv ++ " UTC").
  { intros input tv H. unfold formatDate.
    change (match input with
            | FromString s => Date_parse rt s
            | FromDate d => d
            | FromNumber n => JsDate.timeClip n
            end) with (toDate rt input).
    rewrite H. apply iso_rewritten. }
  split; [reflexivity|]. split; [exact Hnone|]. split; [exact Hsome|].
  intros [input|]; [|discriminate].
  destruct (toDate rt input) as [tv|] eqn:E.
  - rewrite (Hsome _ _ E). apply stamp_not_catch_sentinel.
  - rewrite (Hnone _ E). discriminate.
Qed.

Lemma formatDate_outcomes_witness :
  formatDate SampleHost.host (Some (FromString "next week"))
  = "Invalid date input"
  /\ formatDate SampleHost.host (Some (FromNumber 9000000000000000))
     = "Invalid date input"
  /\ formatDate SampleHost.host (Some (FromNumber 1700000000123))
     = stampText 1700000000123 ++ " UTC".
Proof.
  destruct (formatDate_outcomes SampleHost.host) as (_ & Hnone & Hsome & _).
  split; [|split].
  - apply Hnone. reflexivity.
  - apply Hnone. reflexivity.
  - apply Hsome. reflexivity.
Defined.

(** X9.  For every date of the years 0 to 9999, [formatDate] returns a
    text laid out as [YYYY-MM-DD HH:MM:SS UTC]: 23 characters, digits at
    the places of the letters and the punctuation as shown. *)
Theorem formatDate_layout (rt : Runtime) (input : DateInput) (tv : Z) :
  toDate rt input = Some tv ->
  firstOfYear0 <= tv <= lastOfYear9999 ->
  fits stampShape (formatDate rt (Some input)) = true
  /\ String.length (formatDate rt (Some input)) = 23%nat.
Proof.
  intros Hdate Htv.
  assert (E : formatDate rt (Some input) = stampText tv ++ " UTC").
  { unfold formatDate.
    change (match input with
            | FromString s => Date_parse rt s
            | FromDate d => d
            | FromNumber n => JsDate.timeClip n
            end) with (toDate rt input).
    rewrite Hdate. apply iso_rewritten. }
  rewrite E. pose proof (stampText_fits tv Htv) as Hfit.
  split; [exact Hfit|].
  unfold fits in Hfit. apply andb_true_iff in Hfit as [_ Hlen].
  now apply Nat.eqb_eq in Hlen.
Qed.

Lemma formatDate_layout_witness :
  fits stampShape
    (formatDate SampleHost.host (Some (FromDate (Some 951782400000)))) = true
  /\ String.length
       (formatDate SampleHost.host (Some (FromDate (Some 951782400000))))
     = 23%nat.
Proof.
  apply (formatDate_layout SampleHost.host (FromDate (Some 951782400000))
           951782400000).
  - reflexivity.
  - unfold firstOfYear0, lastOfYear9999. lia.
Defined.

(** ** atlassian.issues.create.formatter.ts: field lists *)

(** X10.  The required and the optional fields partition the field map:
    every entry is in exactly one of the two lists, each list keeps the
    entries in the order of the map, and together they are as many as the
    map holds. *)
Theorem required_optional_partition (fields : list (string * Field.t)) :
  (List.length (requiredOf fields) + List.length (optionalOf fields)
   = List.length fields)%nat
  /\ (forall e, In e fields <-> In e (requiredOf fields) \/ In e (optionalOf fields))
  /\ (forall e, ~ (In e (requiredOf fields) /\ In e (optionalOf fields)))
  /\ (forall a b,
         requiredOf (a ++ b) = (requiredOf a ++ requiredOf b)%list
         /\ optionalOf (a ++ b) = (optionalOf a ++ optionalOf b)%list).
Proof.
  unfold requiredOf, optionalOf. repeat split.
  - induction fields as [|[k f] fields IH]; [reflexivity|].
    cbn [filter]. destruct (Field.required f); cbn [negb List.length]; lia.
  - intros Hin. destruct e as [k f].
    destruct (Field.required f) eqn:E.
    + left. apply filter_In. now split.
    + right. apply filter_In. split; [exact Hin | now rewrite E].
  - intros [H|H]; apply filter_In in H; tauto.
  - intros [k f] [H1 H2]. apply filter_In in H1 as [_ H1].
    apply filter_In in H2 as [_ H2]. now rewrite H1 in H2.
  - apply filter_app.
  - apply filter_app.
Qed.

(** X11.  The limit of [formatFieldList] has no effect on a list of ten
    fields or fewer: the result is that of the call without limit. *)
Theorem field_limit_spares_short_lists (rt : Runtime)
    (fields : list (string * Field.t)) :
  (List.length fields <= 10)%nat ->
  formatFieldList rt fields true = formatFieldList rt fields false.
Proof.
  intros Hlen. unfold formatFieldList, fieldListLines.
  destruct fields as [|f fields]; [reflexivity|].
  rewrite firstn_all2 by exact Hlen.
  replace (10 <? List.length (f :: fields))%nat with false
    by (symmetry; apply Nat.ltb_ge; exact Hlen).
  reflexivity.
Qed.

Lemma field_limit_spares_short_lists_witness :
  formatFieldList SampleHost.host (firstn 10 Samples.twelveOptional) true
  = formatFieldList SampleHost.host (firstn 10 Samples.twelveOptional) false.
Proof.
  apply (field_limit_spares_short_lists SampleHost.host
           (firstn 10 Samples.twelveOptional)).
  vm_compute. lia.
Defined.

(** X12.  [formatFieldList] pushes two lines for each field it shows.
    Without limit that is twice the number of fields; with the limit it is
    never more than 21 lines, however many fields there are. *)
Theorem field_list_line_count (rt : Runtime) (fields : list (string * Field.t)) :
  List.length (fieldListLines rt fields false) = (2 * List.length fields)%nat
  /\ (List.length (fieldListLines rt fields true) <= 21)%nat
  /\ List.length (fieldListLines rt fields true)
     = (if (10 <? List.length fields)%nat then 21 else 2 * List.length fields)%nat.
Proof.
  assert (Htrue : List.length (fieldListLines rt fields true)
                  = (if (10 <? List.length fields)%nat then 21
                     else 2 * List.length fields)%nat).
  { unfold fieldListLines. cbn [andb].
    rewrite length_app, fieldEntries_length, length_firstn.
    destruct (Nat.ltb_spec 10 (List.length fields)); cbn [List.length]; lia. }
  split; [|split; [|exact Htrue]].
  - unfold fieldListLines. cbn [andb].
    rewrite length_app, fieldEntries_length. cbn [List.length]. lia.
  - rewrite Htrue. destruct (Nat.ltb_spec 10 (List.length fields)); lia.
Qed.

(** X13.  The identifier that [formatFieldList] displays for a field is
    its [key]; when the key is absent or empty, its [fieldId]; when that is
    absent or empty too, the key under which the field sits in the map. *)
Theorem field_display_id_falls_back (rt : Runtime) (fieldId : string)
    (field : Field.t) :
  exists displayId,
    hd "" (fieldEntry rt (fieldId, field))
    = "- **" ++ Field.name field ++ "** (`" ++ displayId ++ "`)"
    /\ (forall k, Field.key field = Some k -> k <> "" -> displayId = k)
    /\ (truthy (Field.key field) = false ->
        forall i, Field.fieldId field = Some i -> i <> "" -> displayId = i)
    /\ (truthy (Field.key field) = false ->
        truthy (Field.fieldId field) = false -> displayId = fieldId).
Proof.
  eexists. split; [reflexivity|]. repeat split.
  - intros k -> Hk. destruct k; [now elim Hk | reflexivity].
  - intros Hkey i Hi Hne. rewrite Hkey, Hi.
    destruct i; [now elim Hne | reflexivity].
  - intros Hkey Hid. rewrite Hkey. unfold orElse.
    destruct (Field.fieldId field) as [i|]; [|reflexivity].
    simpl in Hid. now rewrite Hid.
Qed.

Lemma field_display_id_falls_back_witness :
  hd "" (fieldEntry SampleHost.host (Samples.textField 7))
  = "- **Field 7** (`customfield_7`)"
  /\ hd "" (fieldEntry SampleHost.host Samples.summaryField)
     = "- **Summary** (`summary`)".
Proof.
  split.
  - destruct (field_display_id_falls_back SampleHost.host
                (fst (Samples.textField 7)) (snd (Samples.textField 7)))
      as (id & E & _ & _ & Hmap).
    change (fst (Samples.textField 7), snd (Samples.textField 7))
      with (Samples.textField 7) in E.
    rewrite E, (Hmap eq_refl eq_refl). reflexivity.
  - destruct (field_display_id_falls_back SampleHost.host
                (fst Samples.summaryField) (snd Samples.summaryField))
      as (id & E & Hkey & _).
    change (fst Samples.summaryField, snd Samples.summaryField)
      with Samples.summaryField in E.
    rewrite E, (Hkey "summary" eq_refl ltac:(discriminate)). reflexivity.
Defined.

(** ** atlassian.issues.create.formatter.ts: the metadata document *)

Module MetaFacts.
Import StrFacts TextFacts StampFacts CreateFacts.

Lemma formatCreateMeta_of_body (rt : Runtime) (now : Z) (m1 m2 : CreateMeta.t)
    (k : string) :
  createMetaBody rt m1 = createMetaBody rt m2 ->
  formatCreateMeta rt now m1 k = formatCreateMeta rt now m2 k.
Proof.
  intros E. unfold formatCreateMeta, createMetaLines. now rewrite E.
Qed.

End MetaFacts.

Import MetaFacts.

(** X14.  Of a legacy response, only the first project is rendered: the
    projects that follow it leave no trace in the document. *)
Theorem only_first_project_rendered (rt : Runtime) (now : Z) (m : CreateMeta.t)
    (projectKey : string) (project : Project.t) (rest : list Project.t) :
  CreateMeta.fields m = None \/ truthy (CreateMeta.name m) = false ->
  CreateMeta.projects m = Some (project :: rest) ->
  formatCreateMeta rt now m projectKey
  = formatCreateMeta rt now (withProjects m (Some [project])) projectKey.
Proof.
  intros Hshape Hprojects. apply formatCreateMeta_of_body.
  rewrite (createMetaBody_legacy rt m project rest Hshape Hprojects).
  symmetry. now apply (createMetaBody_legacy rt _ project []).
Qed.

Lemma only_first_project_rendered_witness :
  formatCreateMeta SampleHost.host 0
    (MoreSamples.legacyOf [Samples.alpha; MoreSamples.beta]) "ABC"
  = formatCreateMeta SampleHost.host 0
      (MoreSamples.legacyOf [Samples.alpha]) "ABC".
Proof.
  apply (only_first_project_rendered SampleHost.host 0
           (MoreSamples.legacyOf [Samples.alpha; MoreSamples.beta]) "ABC"
           Samples.alpha [MoreSamples.beta]).
  - left. reflexivity.
  - reflexivity.
Defined.

(** X15.  The single-type shape wins over the legacy one: when [fields] is
    present and [name] is not empty, the [projects] of the response are
    not looked at. *)
Theorem single_type_shape_wins (rt : Runtime) (now : Z) (m : CreateMeta.t)
    (projectKey : string) (fields : list (string * Field.t))
    (projects : option (list Project.t)) :
  CreateMeta.fields m = Some fields ->
  truthy (CreateMeta.name m) = true ->
  formatCreateMeta rt now (withProjects m projects) projectKey
  = formatCreateMeta rt now m projectKey.
Proof.
  intros Hfields Hname. apply formatCreateMeta_of_body.
  unfold createMetaBody, withProjects. cbn [CreateMeta.fields CreateMeta.name
    CreateMeta.description CreateMeta.projects].
  now rewrite Hfields, Hname.
Qed.

Lemma single_type_shape_wins_witness :
  formatCreateMeta SampleHost.host 0
    (withProjects (Samples.single [Samples.summaryField] (Some "Bug"))
                  (Some [Samples.alpha])) "ABC"
  = formatCreateMeta SampleHost.host 0
      (Samples.single [Samples.summaryField] (Some "Bug")) "ABC".
Proof.
  apply (single_type_shape_wins SampleHost.host 0
           (Samples.single [Samples.summaryField] (Some "Bug")) "ABC"
           [Samples.summaryField] (Some [Samples.alpha])).
  - reflexivity.
  - reflexivity.
Defined.

(** X16.  A legacy response whose first project has no issue type is
    rendered with the name and key of the project and nothing under them:
    no issue type section, and not the line [*No issue types available for
    this project.*] either. *)
Theorem project_without_issue_types (rt : Runtime) (now : Z) (m : CreateMeta.t)
    (projectKey : string) (project : Project.t) (rest : list Project.t) :
  CreateMeta.fields m = None \/ truthy (CreateMeta.name m) = false ->
  CreateMeta.projects m = Some (project :: rest) ->
  Project.issuetypes project = [] ->
  formatCreateMeta rt now m projectKey
  = Str.join Str.LF
      ["# Issue Creation Metadata";
       "Project: **" ++ projectKey ++ "**";
       "";
       "**" ++ Project.name project ++ "** (" ++ Project.key project ++ ")";
       "";
       "";
       "---";
       "*Retrieved at: " ++ stampText now ++ " UTC*"].
Proof.
  intros Hshape Hprojects Hnone. rewrite formatCreateMeta_split.
  unfold createMetaLines.
  rewrite (createMetaBody_legacy rt m project rest Hshape Hprojects), Hnone.
  cbn [forEachIndexed List.length seq combine flat_map app].
  change (formatHeading "Issue Creation Metadata" 1)
    with "# Issue Creation Metadata".
  change formatSeparator with "---".
  rewrite !join_cons. cbn [Str.join String.concat].
  now rewrite !append_assoc.
Qed.

Lemma project_without_issue_types_witness :
  Str.lines
    (formatCreateMeta SampleHost.host 0
       (MoreSamples.legacyOf [MoreSamples.bare]) "BAR")
  = ["# Issue Creation Metadata"; "Project: **BAR**"; "";
     "**Bare** (BAR)"; ""; ""; "---";
     "*Retrieved at: 1970-01-01 00:00:00 UTC*"].
Proof.
  rewrite (project_without_issue_types SampleHost.host 0
             (MoreSamples.legacyOf [MoreSamples.bare]) "BAR"
             MoreSamples.bare []).
  - vm_compute. reflexivity.
  - left. reflexivity.
  - reflexivity.
  - reflexivity.
Defined.

(** X17.  An issue type without optional fields closes, in the legacy
    path, with the line [*No optional fields available.*]; the single-type
    path closes with [*None*] instead. *)
Theorem no_optional_fields_line (rt : Runtime) :
  (forall issueType index,
      optionalOf (IssueType.fields issueType) = [] ->
      last (issueTypeLines rt issueType index) ""
      = "*No optional fields available.*")
  /\ (forall name description fields,
         optionalOf fields = [] ->
         last (singleTypeLines rt name description fields) "" = "*None*").
Proof.
  split.
  - intros it index Hnone. unfold issueTypeLines. rewrite Hnone.
    destruct (0 <? index)%nat; destruct (truthy (IssueType.description it));
      reflexivity.
  - intros name description fields Hnone. unfold singleTypeLines.
    rewrite Hnone. destruct (truthy description); reflexivity.
Qed.

Lemma no_optional_fields_line_witness :
  last (issueTypeLines SampleHost.host MoreSamples.bug 0) ""
  = "*No optional fields available.*"
  /\ last (singleTypeLines SampleHost.host "Bug" None [Samples.summaryField]) ""
     = "*None*".
Proof.
  destruct (no_optional_fields_line SampleHost.host) as [Hlegacy Hsingle].
  split; [apply Hlegacy | apply Hsingle]; reflexivity.
Defined.

(** X18.  In the legacy path the issue types of the first project are
    rendered in their order, the first one directly under the project
    line and each later one after a blank line, the separator and a blank
    line. *)
Theorem issue_types_separated (rt : Runtime) (m : CreateMeta.t)
    (project : Project.t) (rest : list Project.t)
    (first : IssueType.t) (others : list IssueType.t) :
  CreateMeta.fields m = None \/ truthy (CreateMeta.name m) = false ->
  CreateMeta.projects m = Some (project :: rest) ->
  Project.issuetypes project = first :: others ->
  createMetaBody rt m
  = ["**" ++ Project.name project ++ "** (" ++ Project.key project ++ ")"; ""]
      +++ issueTypeLines rt first 0
      +++ flat_map (fun issueType =>
                      [""; "---"; ""] +++ issueTypeLines rt issueType 0)
                   others.
Proof.
  intros Hshape Hprojects Htypes.
  rewrite (createMetaBody_legacy rt m project rest Hshape Hprojects), Htypes.
  unfold forEachIndexed. cbn [List.length seq combine flat_map].
  now rewrite forEachIndexed_from.
Qed.

Lemma issue_types_separated_witness :
  createMetaBody SampleHost.host (MoreSamples.legacyOf [MoreSamples.beta])
  = ["**Beta** (BET)"; ""]
      +++ issueTypeLines SampleHost.host Samples.task 0
      +++ [""; "---"; ""]
      +++ issueTypeLines SampleHost.host MoreSamples.bug 0.
Proof.
  rewrite (issue_types_separated SampleHost.host
             (MoreSamples.legacyOf [MoreSamples.beta]) MoreSamples.beta []
             Samples.task [MoreSamples.bug]).
  - cbn [flat_map]. now rewrite app_nil_r.
  - left. reflexivity.
  - reflexivity.
  - reflexivity.
Defined.

(** ** atlassian.issues.create.formatter.ts: the created issue *)

Module IssueFacts.
Import StrFacts TextFacts StampFacts CreateFacts.

(** A line of the document of a created issue occurs in the document. *)
Lemma createIssue_line_occurs (rt : Runtime) (now : Z) (r : CreateIssue.t)
    (line : string) :
  In line (createIssueLines rt r) ->
  Str.occursIn line (formatCreateIssueResponse rt now r).
Proof.
  intros Hin. rewrite formatCreateIssueResponse_split.
  apply occursIn_trans with (b := Str.join Str.LF (createIssueLines rt r)).
  - now apply occursIn_join.
  - exists "", (Str.LF ++ "*Issue created at: " ++ stampText now ++ " UTC*").
    reflexivity.
Qed.

Lemma transition_line_in_document (rt : Runtime) (r : CreateIssue.t)
    (t : Transition.t) (line : string) :
  CreateIssue.transition r = Some t ->
  In line (transitionLines t) -> In line (createIssueLines rt r).
Proof.
  intros Ht Hin. unfold createIssueLines. rewrite Ht.
  apply in_or_app. right. apply in_or_app. right. apply in_or_app. now left.
Qed.

Lemma length_take_le (i : nat) (s : string) :
  (String.length (Str.take i s) <= i)%nat.
Proof.
  revert s. induction i as [|i IH]; intros s; [reflexivity|].
  destruct s as [|c s]; simpl; [lia|]. specialize (IH s). lia.
Qed.

(** [indexOf] answers the least position. *)
Lemma indexOf_least (pat s : string) (i : nat) :
  Str.indexOf pat s = Some i ->
  forall a b, s = a ++ pat ++ b -> (i <= String.length a)%nat.
Proof.
  revert i. induction s as [|c s IH]; intros i Hi a b E;
    rewrite indexOf_eq in Hi.
  - destruct a; [|discriminate E]. simpl in E. rewrite E in Hi.
    rewrite prefix_app in Hi. injection Hi as <-. reflexivity.
  - destruct (String.prefix pat (String c s)) eqn:Ep;
      [injection Hi as <-; lia|].
    destruct a as [|d a].
    + simpl in E. rewrite E, prefix_app in Ep. discriminate Ep.
    + injection E as -> E.
      destruct (Str.indexOf pat s) as [j|] eqn:Ej; [|discriminate].
      injection Hi as <-. specialize (IH j eq_refl a b E). simpl. lia.
Qed.

End IssueFacts.

Import IssueFacts.

(** X19.  A transition without error collection, or with one that holds
    no message and no field error (absent or empty, each), is rendered as
    its status alone: neither [**Warnings:**] nor [**Field Errors:**] is
    pushed. *)
Theorem empty_error_collection_renders_status_only (t : Transition.t) :
  Transition.errorCollection t = None
  \/ (exists errors,
         Transition.errorCollection t = Some errors
         /\ (ErrorCollection.errorMessages errors = None
             \/ ErrorCollection.errorMessages errors = Some [])
         /\ (ErrorCollection.errors errors = None
             \/ ErrorCollection.errors errors = Some [])) ->
  transitionLines t
  = [""; "## Creation Status";
     "Status Code: " ++ numToString (Transition.status t)].
Proof.
  unfold transitionLines.
  intros [-> | (errors & -> & [-> | ->] & [-> | ->])]; reflexivity.
Qed.

Lemma empty_error_collection_renders_status_only_witness :
  transitionLines
    (MoreSamples.transitionWith
       (Some {| ErrorCollection.errorMessages := Some [];
                ErrorCollection.errors := Some [] |}))
  = [""; "## Creation Status"; "Status Code: 400"].
Proof.
  apply (empty_error_collection_renders_status_only
           (MoreSamples.transitionWith
              (Some {| ErrorCollection.errorMessages := Some [];
                       ErrorCollection.errors := Some [] |}))).
  right. eexists. split; [reflexivity|]. split; right; reflexivity.
Defined.

(** X20.  Every error of the error collection of a transition reaches the
    document: each message as the bullet [- message] under
    [**Warnings:**], each field error as the bullet [- **field**: error]
    under [**Field Errors:**]. *)
Theorem transition_errors_rendered (rt : Runtime) (now : Z) (r : CreateIssue.t)
    (t : Transition.t) (errors : ErrorCollection.t) :
  CreateIssue.transition r = Some t ->
  Transition.errorCollection t = Some errors ->
  (forall messages message,
      ErrorCollection.errorMessages errors = Some messages ->
      In message messages ->
      Str.occursIn "**Warnings:**" (formatCreateIssueResponse rt now r)
      /\ Str.occursIn ("- " ++ message) (formatCreateIssueResponse rt now r))
  /\ (forall fieldErrors field error,
         ErrorCollection.errors errors = Some fieldErrors ->
         In (field, error) fieldErrors ->
         Str.occursIn "**Field Errors:**" (formatCreateIssueResponse rt now r)
         /\ Str.occursIn ("- **" ++ field ++ "**: " ++ error)
              (formatCreateIssueResponse rt now r)).
Proof.
  intros Ht Herrors.
  assert (Hdoc : forall line, In line (transitionLines t) ->
                   Str.occursIn line (formatCreateIssueResponse rt now r)).
  { intros line Hin. apply createIssue_line_occurs.
    now apply (transition_line_in_document rt r t). }
  split.
  - intros messages message Hm Hin.
    assert (Hsec : forall line,
               In line ([""; "**Warnings:**"]
                          +++ map (fun msg => "- " ++ msg) messages) ->
               In line (transitionLines t)).
    { intros line Hl. unfold transitionLines. rewrite Herrors, Hm.
      destruct messages as [|m0 ms]; [contradiction|].
      apply in_or_app. right. apply in_or_app. now left. }
    split; apply Hdoc, Hsec.
    + right. now left.
    + do 2 right. apply in_map_iff. now exists message.
  - intros fieldErrors field error He Hin.
    assert (Hsec : forall line,
               In line ([""; "**Field Errors:**"]
                          +++ map (fun '(f, e) => "- **" ++ f ++ "**: " ++ e)
                                  fieldErrors) ->
               In line (transitionLines t)).
    { intros line Hl. unfold transitionLines. rewrite Herrors, He.
      destruct fieldErrors as [|e0 es]; [contradiction|].
      apply in_or_app. right. apply in_or_app. now right. }
    split; apply Hdoc, Hsec.
    + right. now left.
    + do 2 right. apply in_map_iff. now exists (field, error).
Qed.

Lemma transition_errors_rendered_witness :
  Str.occursIn "- Field X required"
    (formatCreateIssueResponse SampleHost.host 0
       (MoreSamples.createdWith
          (Some (MoreSamples.transitionWith
                   (Some {| ErrorCollection.errorMessages :=
                              Some ["Field X required"];
                            ErrorCollection.errors := None |}))))).
Proof.
  destruct (transition_errors_rendered SampleHost.host 0
              (MoreSamples.createdWith
                 (Some (MoreSamples.transitionWith
                          (Some {| ErrorCollection.errorMessages :=
                                     Some ["Field X required"];
                                   ErrorCollection.errors := None |}))))
              (MoreSamples.transitionWith
                 (Some {| ErrorCollection.errorMessages :=
                            Some ["Field X required"];
                          ErrorCollection.errors := None |}))
              {| ErrorCollection.errorMessages := Some ["Field X required"];
                 ErrorCollection.errors := None |}
              eq_refl eq_refl) as [Hmsg _].
  apply (Hmsg ["Field X required"] "Field X required" eq_refl).
  now left.
Defined.

(** X21.  Without transition, the document of a created issue is the
    heading, a blank line, the four bullets (key, id, API link, browse
    link), a blank line, the separator and the timestamp line: no
    [Creation Status] section is rendered. *)
Theorem created_without_transition (rt : Runtime) (now : Z) (r : CreateIssue.t) :
  CreateIssue.transition r = None ->
  formatCreateIssueResponse rt now r
  = Str.join Str.LF
      ["# ✅ Issue Created Successfully";
       "";
       "- **Issue Key**: " ++ formatValue rt (VStr (CreateIssue.key r));
       "- **Issue ID**: " ++ formatValue rt (VStr (CreateIssue.id r));
       "- **Jira URL**: "
         ++ formatUrl (Some (CreateIssue.self r)) (Some "Open in Jira");
       "- **Browse URL**: "
         ++ formatUrl (Some (browseUrl (CreateIssue.self r)))
                      (Some "View in Browser");
       "";
       "---";
       "*Issue created at: " ++ stampText now ++ " UTC*"].
Proof.
  intros Hnone. rewrite formatCreateIssueResponse_split.
  unfold createIssueLines. rewrite Hnone.
  unfold formatBulletList. cbn [flat_map app].
  rewrite !formatValue_rendered_link.
  change (formatHeading "✅ Issue Created Successfully" 1)
    with "# ✅ Issue Created Successfully".
  change formatSeparator with "---".
  rewrite !join_cons. cbn [Str.join String.concat].
  now rewrite !append_assoc.
Qed.

Lemma created_without_transition_witness :
  Str.lines
    (formatCreateIssueResponse SampleHost.host 0 (MoreSamples.createdWith None))
  = ["# ✅ Issue Created Successfully"; "";
     "- **Issue Key**: ABC-1";
     "- **Issue ID**: 10001";
     "- **Jira URL**: [Open in Jira](https://x.atlassian.net/rest/api/3/issue/10001)";
     "- **Browse URL**: [View in Browser](https://x.atlassian.net/browse/10001)";
     ""; "---";
     "*Issue created at: 1970-01-01 00:00:00 UTC*"].
Proof.
  rewrite (created_without_transition SampleHost.host 0
             (MoreSamples.createdWith None)).
  - vm_compute. reflexivity.
  - reflexivity.
Defined.

(** X22.  When [/rest/api/3/issue/] occurs in [self], the Browse URL is
    [self] with the first occurrence, and only that one, replaced by
    [/browse/]: the text before and after it is kept, and the result is
    ten characters shorter. *)
Theorem browse_url_replaces_first_occurrence (self : string) :
  Str.occursIn "/rest/api/3/issue/" self ->
  exists before after,
    self = before ++ "/rest/api/3/issue/" ++ after
    /\ browseUrl self = before ++ "/browse/" ++ after
    /\ (forall before' after',
           self = before' ++ "/rest/api/3/issue/" ++ after' ->
           (String.length before <= String.length before')%nat)
    /\ (String.length (browseUrl self) + 10 = String.length self)%nat.
Proof.
  intros (a & b & E).
  destruct (indexOf_complete "/rest/api/3/issue/" a b) as [i Hi].
  rewrite <- E in Hi. pose proof (indexOf_some _ _ _ Hi) as Hsplit.
  exists (Str.take i self), (Str.drop (i + 18) self).
  assert (Hb : browseUrl self
               = Str.take i self ++ "/browse/" ++ Str.drop (i + 18) self).
  { unfold browseUrl, Str.replace. now rewrite Hi. }
  split; [exact Hsplit|]. split; [exact Hb|]. split.
  - intros a' b' E'. pose proof (indexOf_least _ _ _ Hi a' b' E') as Hle.
    pose proof (length_take_le i self). lia.
  - rewrite Hb. rewrite Hsplit at 3. rewrite !length_append. simpl. lia.
Qed.

Lemma browse_url_replaces_first_occurrence_witness :
  (String.length
     (browseUrl "https://x.io/rest/api/3/issue//rest/api/3/issue/7") + 10
   = String.length "https://x.io/rest/api/3/issue//rest/api/3/issue/7")%nat.
Proof.
  destruct (browse_url_replaces_first_occurrence
              "https://x.io/rest/api/3/issue//rest/api/3/issue/7")
    as (before & after & _ & _ & _ & Hlen).
  - exists "https://x.io", "/rest/api/3/issue/7". reflexivity.
  - exact Hlen.
Defined.

(** ** formatter.util.ts: the pagination footer, again *)

Module FooterFacts.
Import StrFacts TextFacts StampFacts PaginationFacts.

(** A text that lacks a character holds no pattern that starts with it. *)
Lemma lacks_no_occurrence (c : ascii) (pat s : string) :
  Str.lacks c s = true -> Str.includes s (String c pat) = false.
Proof.
  induction s as [|d s IH]; intros H; [reflexivity|].
  simpl in H. apply andb_true_iff in H as [Hd Hs].
  rewrite includes_cons, (IH Hs), orb_false_r.
  apply prefix_head_neq. intros E. subst d.
  now rewrite Ascii.eqb_refl in Hd.
Qed.

Lemma showingPart_lacks_M (p : Pagination.t) :
  Forall (fun part => Str.lacks "M" part = true) (showingPart p).
Proof.
  unfold showingPart.
  destruct (Pagination.total p) as [t|]; [destruct (0 <=? t)|];
    try destruct (0 <=? countOf p);
    repeat constructor; lacks_pieces.
Qed.

(** Without more results, the footer holds no [M]. *)
Lemma footer_lacks_M (rt : Runtime) (now : Z) (p : Pagination.t) :
  Pagination.hasMore p = false ->
  Str.lacks "M" (formatPagination rt now p) = true.
Proof.
  intros H. rewrite formatPagination_join, !lacks_app.
  rewrite lacks_join; [| reflexivity |].
  - rewrite (stampChar_lacks "M" (stampText now));
      [reflexivity | reflexivity | apply stampText_stampChars].
  - unfold paginationParts, morePart, hintPart. rewrite H.
    constructor; [reflexivity|].
    apply Forall_app; split; [apply showingPart_lacks_M | constructor].
Qed.

End FooterFacts.

Import FooterFacts.

(** X23.  The footer always opens with the separator line, and the
    [trim] at the end of [formatPagination] removes nothing: the footer is
    its own trim, with no white space at either end. *)
Theorem footer_opens_with_separator (rt : Runtime) (now : Z) (p : Pagination.t) :
  (exists rest, formatPagination rt now p = "---" ++ Str.LF ++ rest)
  /\ Str.trim (formatPagination rt now p) = formatPagination rt now p
  /\ formatPagination rt now p
     = Str.join Str.LF
         (paginationParts p
            +++ ["*Information retrieved at: " ++ stamp rt now ++ "*"]).
Proof.
  assert (Hjoin : formatPagination rt now p
                  = Str.join Str.LF
                      (paginationParts p
                         +++ ["*Information retrieved at: " ++ stamp rt now ++ "*"])).
  { rewrite formatPagination_join, stamp_eq.
    destruct (paginationParts_head p) as [rest E].
    rewrite join_snoc by (rewrite E; discriminate).
    now rewrite !append_assoc. }
  split; [|split; [|exact Hjoin]].
  - rewrite formatPagination_join.
    destruct (paginationParts_head p) as [rest ->].
    destruct rest as [|x rest].
    + eexists. reflexivity.
    + rewrite join_cons. eexists. rewrite !append_assoc. reflexivity.
  - rewrite formatPagination_join.
    destruct (paginationParts_head p) as [rest ->].
    destruct (join_head Str.LF "---" rest) as [tl ->].
    replace (("---" ++ tl) ++ Str.LF
               ++ "*Information retrieved at: " ++ stampText now ++ " UTC*")
      with (String "-" "--"
              ++ (tl ++ Str.LF ++ "*Information retrieved at: "
                     ++ stampText now ++ " UTC")
              ++ String "*" "")
      by (rewrite !append_assoc; reflexivity).
    now apply trim_keeps_app.
Qed.

(** X24.  The line [More results are available.] is in the footer exactly
    when [hasMore] is true. *)
Theorem more_line_iff_has_more (rt : Runtime) (now : Z) (p : Pagination.t) :
  Str.occursIn "More results are available." (formatPagination rt now p)
  <-> Pagination.hasMore p = true.
Proof.
  split.
  - intros Hocc. destruct (Pagination.hasMore p) eqn:E; [reflexivity|].
    exfalso. revert Hocc. apply not_occursIn.
    change "More results are available."
      with (String "M" "ore results are available.").
    apply lacks_no_occurrence. now apply footer_lacks_M.
  - intros H. rewrite formatPagination_join.
    apply occursIn_trans with (b := Str.join Str.LF (paginationParts p)).
    + apply occursIn_join. unfold paginationParts, morePart. rewrite H.
      apply in_or_app. right. apply in_or_app. right. apply in_or_app. left.
      now left.
    + exists "", (Str.LF ++ "*Information retrieved at: " ++ stampText now
                    ++ " UTC*").
      reflexivity.
Qed.

Lemma more_line_iff_has_more_witness :
  Str.occursIn "More results are available."
    (formatPagination SampleHost.host 0 (Samples.page (Some 10) true None None))
  /\ ~ Str.occursIn "More results are available."
         (formatPagination SampleHost.host 0
            (Samples.page (Some 10) false (Some "More results are available.")
                          None)).
Proof.
  split.
  - apply (more_line_iff_has_more SampleHost.host 0
             (Samples.page (Some 10) true None None)).
    reflexivity.
  - intros H.
    apply (more_line_iff_has_more SampleHost.host 0
             (Samples.page (Some 10) false
                (Some "More results are available.") None)) in H.
    discriminate H.
Defined.

(** X25.  The hint [Use --start-at] is in the footer exactly when
    [hasMore] is true and the cursor is present and not empty. *)
Theorem hint_iff_more_and_cursor (rt : Runtime) (now : Z) (p : Pagination.t) :
  Str.occursIn "Use --start-at" (formatPagination rt now p)
  <-> Pagination.hasMore p = true /\ truthy (Pagination.nextCursor p) = true.
Proof.
  split.
  - intros Hocc.
    destruct (Pagination.hasMore p && truthy (Pagination.nextCursor p)) eqn:E;
      [now apply andb_true_iff in E|].
    exfalso. revert Hocc. apply StrFacts.not_occursIn.
    rewrite PaginationFacts.formatPagination_join.
    replace (Str.join Str.LF (paginationParts p) ++ Str.LF
               ++ "*Information retrieved at: " ++ stampText now ++ " UTC*")
      with ((Str.join Str.LF (paginationParts p) ++ Str.LF
               ++ "*Information retrieved at: " ++ stampText now ++ " ")
              ++ "UTC*")
      by (rewrite !StrFacts.append_assoc; reflexivity).
    apply PaginationFacts.no_hint_before_UTC.
    rewrite !StrFacts.lacks_app.
    rewrite PaginationFacts.lacks_join; [| reflexivity |].
    + rewrite (StampFacts.stampChar_lacks "U" (stampText now));
        [reflexivity | reflexivity | apply StampFacts.stampText_stampChars].
    + unfold paginationParts, hintPart. rewrite E.
      constructor; [reflexivity|].
      apply Forall_app; split;
        [apply PaginationFacts.showingPart_lacks; now left|].
      apply Forall_app; split; [|constructor].
      unfold morePart. destruct (Pagination.hasMore p); repeat constructor.
  - intros [Hmore Hcursor]. rewrite PaginationFacts.formatPagination_join.
    apply TextFacts.occursIn_trans
      with (b := "*Use --start-at " ++ orElse (Pagination.nextCursor p) ""
                   ++ " to view more.*").
    + exists "*", (" " ++ orElse (Pagination.nextCursor p) ""
                     ++ " to view more.*").
      reflexivity.
    + apply TextFacts.occursIn_trans
        with (b := Str.join Str.LF (paginationParts p)).
      * apply TextFacts.occursIn_join. unfold paginationParts, hintPart.
        rewrite Hmore, Hcursor.
        apply in_or_app. right. apply in_or_app. right. apply in_or_app. right.
        now left.
      * exists "", (Str.LF ++ "*Information retrieved at: " ++ stampText now
                      ++ " UTC*").
        reflexivity.
Qed.

Lemma hint_iff_more_and_cursor_witness :
  ~ Str.occursIn "Use --start-at"
      (formatPagination SampleHost.host 0
         (Samples.page (Some 10) true (Some "") (Some 40)))
  /\ Str.occursIn "Use --start-at"
       (formatPagination SampleHost.host 0
          (Samples.page (Some 10) true (Some "10") (Some 40))).
Proof.
  split.
  - intros H.
    apply (hint_iff_more_and_cursor SampleHost.host 0
             (Samples.page (Some 10) true (Some "") (Some 40))) in H.
    destruct H as [_ H]. discriminate H.
  - apply (hint_iff_more_and_cursor SampleHost.host 0
             (Samples.page (Some 10) true (Some "10") (Some 40))).
    split; reflexivity.
Defined.

(** X26.  Every metadata document is framed alike, whatever the shape of
    the response: it opens with the heading, the project line and a blank
    line, and it closes with a blank line, the separator and the timestamp
    line; what stands between is never empty. *)
Theorem metadata_document_framed (rt : Runtime) (now : Z) (m : CreateMeta.t)
    (projectKey : string) :
  createMetaBody rt m <> []
  /\ formatCreateMeta rt now m projectKey
     = "# Issue Creation Metadata" ++ Str.LF
         ++ "Project: **" ++ projectKey ++ "**" ++ Str.LF
         ++ Str.LF
         ++ Str.join Str.LF (createMetaBody rt m) ++ Str.LF
         ++ Str.LF
         ++ "---" ++ Str.LF
         ++ "*Retrieved at: " ++ stampText now ++ " UTC*".
Proof.
  assert (Hne : createMetaBody rt m <> []).
  { unfold createMetaBody.
    destruct (CreateMeta.fields m) as [fs|];
      destruct (truthy (CreateMeta.name m));
      try discriminate;
      destruct (CreateMeta.projects m) as [[|project rest]|]; discriminate. }
  split; [exact Hne|].
  rewrite CreateFacts.formatCreateMeta_split. unfold createMetaLines.
  change (formatHeading "Issue Creation Metadata" 1)
    with "# Issue Creation Metadata".
  change formatSeparator with "---".
  rewrite MoreFacts.join_app; [| discriminate |].
  - rewrite MoreFacts.join_app; [| exact Hne | discriminate].
    rewrite !TextFacts.join_cons. cbn [Str.join String.concat].
    now rewrite !StrFacts.append_assoc.
  - intros E. apply app_eq_nil in E as [E _]. now apply Hne.
Qed.

(** X27.  Of the allowed values of a field, only the first five reach the
    field list: two lists of more than five values that agree on their
    first five give the same two lines. *)
Theorem allowed_values_beyond_fifth_ignored (rt : Runtime) (fieldId : string)
    (field : Field.t) (values1 values2 : list JsValue) :
  firstn 5 values1 = firstn 5 values2 ->
  (5 < List.length values1)%nat ->
  (5 < List.length values2)%nat ->
  fieldEntry rt (fieldId, withAllowed field (Some values1))
  = fieldEntry rt (fieldId, withAllowed field (Some values2)).
Proof.
  intros Hfirst H1 H2. unfold fieldEntry, withAllowed.
  cbn [Field.name Field.key Field.fieldId Field.schema Field.allowedValues
       Field.defaultValue].
  apply Nat.ltb_lt in H1, H2. now rewrite Hfirst, H1, H2.
Qed.

Lemma allowed_values_beyond_fifth_ignored_witness :
  fieldEntry SampleHost.host
    ("priority",
     withAllowed (snd Samples.summaryField)
       (Some [VStr "a"; VStr "b"; VStr "c"; VStr "d"; VStr "e"; VStr "f"]))
  = fieldEntry SampleHost.host
      ("priority",
       withAllowed (snd Samples.summaryField)
         (Some [VStr "a"; VStr "b"; VStr "c"; VStr "d"; VStr "e";
                VStr "x"; VStr "y"])).
Proof.
  apply (allowed_values_beyond_fifth_ignored SampleHost.host "priority"
           (snd Samples.summaryField)
           [VStr "a"; VStr "b"; VStr "c"; VStr "d"; VStr "e"; VStr "f"]
           [VStr "a"; VStr "b"; VStr "c"; VStr "d"; VStr "e";
            VStr "x"; VStr "y"]).
  - reflexivity.
  - simpl. lia.
  - simpl. lia.
Defined.
